(** * Price-inference pipeline of the ml-service: feature engineering
      (features.py) and price estimation (model.py)

    The development embeds the two Python classes [FeatureEngineer] and
    [PricePredictionModel] and proves the properties listed in the
    specification's "testable properties" section.

    Modelling conventions.
    - Python floats are IEEE-754 binary64 values ([PrimFloat.float]); every
      arithmetic operation of the source is the correspondingly rounded
      operation.  The integers that the code itself stores (codes, flags,
      table prices) are small integers, which coerce exactly to binary64 as
      soon as they meet a float; they are held as the floats they equal.
    - A value that a caller puts into a feature dictionary may also be a
      Python int of any size ([PInt]): comparing it with a float is exact,
      multiplying it by a float converts it first and raises
      [OverflowError] when it is too large, and the product of two ints is
      exact.
    - A raised exception is an explicit outcome: fallible code returns
      [result A], and [try ... except Exception] is [try_except].
    - A [dict] with string keys is a [gmap string _].
    - The C mathematical library used by Python's [math] module (sin, cos,
      atan2, pow) is a parameter ([Libm]); the checks that CPython itself adds
      around these calls are written out. *)

From Stdlib Require Import Floats ZArith QArith Qabs.
From stdpp Require Import gmap strings list fin_maps.

Set Warnings "-inexact-float,-register-all".

(** ** Python runtime: exceptions and results *)

Inductive exn : Type :=
  | AttributeError
  | KeyError
  | IndexError
  | TypeError
  | ValueError
  | OverflowError
  | ServiceError.   (* any exception raised by an external client or estimator *)

Inductive result (A : Type) : Type :=
  | Ok (a : A)
  | Raise (e : exn).
Arguments Ok {A} a.
Arguments Raise {A} e.

(** Sequencing: the first exception raised ends the computation. *)
Definition bind {A B} (m : result A) (f : A -> result B) : result B :=
  match m with
  | Ok a => f a
  | Raise e => Raise e
  end.

Notation "x <- m ;; k" := (bind m (fun x => k))
  (at level 100, m at next level, right associativity).

(** [try: body except Exception: handler] *)
Definition try_except {A} (body : result A) (handler : exn -> result A) : result A :=
  match body with
  | Ok a => Ok a
  | Raise e => handler e
  end.

Definition is_ok {A} (r : result A) : bool :=
  match r with Ok _ => true | Raise _ => false end.

(** ** Python values stored in the feature dictionary

    A value is a float, an int of any size ([True] and [False] are the ints
    1 and 0), a string or [None]. *)

Inductive pyval : Type :=
  | PNum (x : float)
  | PInt (n : Z)
  | PStr (s : string)
  | PNone.

(** [v] is a float. *)
Definition is_numeric (v : pyval) : bool :=
  match v with PNum _ => true | _ => false end.

(** [v] is a number, a float or an int. *)
Definition is_number (v : pyval) : bool :=
  match v with PNum _ | PInt _ => true | _ => false end.

(** [float(n)], the conversion that arithmetic between an int and a float
    applies to the int: the nearest binary64 value, ties to even;
    [OverflowError] ("int too large to convert to float") when that value
    would be infinite. *)
Definition int_to_float (n : Z) : result float :=
  match binary_normalize prec emax n 0 false with
  | S754_infinity _ => Raise OverflowError
  | s => Ok (SF2Prim s)
  end.

(** [int(x)] for a finite float, used to read back a table entry that the
    source holds as an int. *)
Definition int_of_float (x : float) : Z :=
  match Prim2SF x with
  | S754_finite s m e =>
      let v := if (0 <=? e)%Z then (Z.pos m * 2 ^ e)%Z else (Z.pos m / 2 ^ (- e))%Z in
      if s then (- v)%Z else v
  | _ => 0%Z
  end.

(** [n < c] for an int [n] and a float [c]: the exact values are compared. *)
Definition int_lt_float (n : Z) (c : float) : bool :=
  match Prim2SF c with
  | S754_nan => false
  | S754_infinity s => negb s
  | S754_zero _ => (n <? 0)%Z
  | S754_finite s m e =>
      let v := if s then Z.neg m else Z.pos m in
      if (0 <=? e)%Z then (n <? v * 2 ^ e)%Z else (n * 2 ^ (- e) <? v)%Z
  end.

(** Truth value of an object: a number is true unless it equals zero (so NaN
    is true), a string unless it is empty, [None] never. *)
Definition truthy (v : pyval) : bool :=
  match v with
  | PNum x => negb (x =? 0)%float
  | PInt n => negb (n =? 0)%Z
  | PStr s => negb (String.eqb s EmptyString)
  | PNone => false
  end.

(** [v < c] for a numeric literal [c]: ordering a string or [None] against a
    number is a [TypeError]. *)
Definition py_lt (v : pyval) (c : float) : result bool :=
  match v with
  | PNum x => Ok (x <? c)%float
  | PInt n => Ok (int_lt_float n c)
  | _ => Raise TypeError
  end.

(** [b * v], read as a float by the statements that follow it.  [b_is_int]
    tells that [b] is an int in the source (a table entry to which no
    multiplier was applied).  A float [b] converts an int [v] before
    multiplying.  An int [b] and an int [v] give the exact int product,
    which is converted by the first multiplication by a float that uses it;
    either conversion raises [OverflowError] for an int that is too large.
    A string or [None] ends in a [TypeError]. *)
Definition py_mul (b : float) (b_is_int : bool) (v : pyval) : result float :=
  match v with
  | PNum x => Ok (b * x)%float
  | PInt n =>
      if b_is_int then int_to_float (int_of_float b * n)
      else x <- int_to_float n ;; Ok (b * x)%float
  | _ => Raise TypeError
  end.

(** [p / v] for a float [p] (NumPy scalar division: division by zero yields an
    infinity or NaN, not an exception; an int divisor is converted first). *)
Definition py_div (p : float) (v : pyval) : result float :=
  match v with
  | PNum x => Ok (p / x)%float
  | PInt n => x <- int_to_float n ;; Ok (p / x)%float
  | _ => Raise TypeError
  end.

(** [d.get(k, default)], [d.get(k)] and [d[k]]. *)
Definition dict_get_default {V} (d : gmap string V) (k : string) (default : V) : V :=
  match d !! k with Some v => v | None => default end.

Definition dict_get (d : gmap string pyval) (k : string) : pyval :=
  dict_get_default d k PNone.

Definition dict_getitem {V} (d : gmap string V) (k : string) : result V :=
  match d !! k with Some v => Ok v | None => Raise KeyError end.

(** [d.update(e)]: the entries of [e] win. *)
Definition dict_update {V} (d e : gmap string V) : gmap string V := e ∪ d.

(** ** Python's [math] module and float power

    [math.sin], [math.cos] and [math.sqrt] call the C function and then apply
    CPython's result check ([math_1]): a NaN result for a non-NaN argument, or
    an infinite result for a finite argument, raises [ValueError] ("math
    domain error").  [math.sqrt] is the correctly rounded IEEE square root.
    [math.atan2] handles signed zeros, infinities and NaN itself ([m_atan2])
    and calls the C function only for the remaining arguments.
    [math.radians x] is [x * (pi / 180)]. *)

Record Libm : Type := {
  c_sin : float -> float;
  c_cos : float -> float;
  c_atan2 : float -> float -> float;
  c_pow : float -> float -> float
}.

(** What the development assumes of the C library: sine is an odd function
    that maps zero to zero, and cosine of a finite argument lies in [-1, 1]. *)
Record LibmLaws (L : Libm) : Prop := {
  sin_odd : forall x, c_sin L (- x)%float = (- c_sin L x)%float;
  sin_zero : c_sin L 0%float = 0%float;
  cos_bound : forall x, is_finite x = true -> (abs (c_cos L x) <=? 1)%float = true
}.

(** A small-angle library (sin x = x, cos x = 1, atan2 y x = y / x): it
    satisfies [LibmLaws] and lets the functions below be evaluated. *)
Definition small_angle_libm : Libm := {|
  c_sin := fun x => x;
  c_cos := fun _ => 1%float;
  c_atan2 := fun y x => (y / x)%float;
  c_pow := fun x _ => (x * x)%float
|}.

Definition math_pi : float := 3.141592653589793%float.

Definition math_1 (func : float -> float) (x : float) : result float :=
  let r := func x in
  if is_nan r && negb (is_nan x) then Raise ValueError
  else if is_infinity r && is_finite x then Raise ValueError
  else Ok r.

Definition math_sin (L : Libm) : float -> result float := math_1 (c_sin L).
Definition math_cos (L : Libm) : float -> result float := math_1 (c_cos L).
Definition math_sqrt : float -> result float := math_1 PrimFloat.sqrt.

Definition copysign (x y : float) : float :=
  if get_sign y then (- abs x)%float else abs x.

Definition m_atan2 (L : Libm) (y x : float) : float :=
  if is_nan x || is_nan y then nan
  else if is_infinity y then
    if is_infinity x then
      if negb (get_sign x) then copysign (0.25 * math_pi)%float y
      else copysign (0.75 * math_pi)%float y
    else copysign (0.5 * math_pi)%float y
  else if is_infinity x || (y =? 0)%float then
    if negb (get_sign x) then copysign 0%float y
    else copysign math_pi y
  else c_atan2 L y x.

Definition math_atan2 (L : Libm) (y x : float) : result float :=
  let r := m_atan2 L y x in
  if is_nan r && negb (is_nan y) && negb (is_nan x) then Raise ValueError
  else if is_infinity r && is_finite y && is_finite x then Raise OverflowError
  else Ok r.

Definition math_radians (x : float) : float := (x * (math_pi / 180))%float.

(** [v ** 2] on a float: NaN, infinities, zeros and unit magnitude are
    answered without the C library; otherwise [pow] is applied to the
    magnitude (the exponent is even) and an infinite result raises
    [OverflowError]. *)
Definition float_pow2 (L : Libm) (v : float) : result float :=
  if is_nan v then Ok v
  else if is_infinity v then Ok (abs v)
  else if (v =? 0)%float then Ok 0%float
  else
    let iv := abs v in
    if (iv =? 1)%float then Ok 1%float
    else
      let ix := c_pow L iv 2%float in
      if is_infinity ix then Raise OverflowError else Ok ix.

(** ** JSON documents returned by the mapping service *)

Inductive json : Type :=
  | JNull
  | JBool (b : bool)
  | JNum (x : float)
  | JStr (s : string)
  | JList (l : list json)
  | JDict (d : list (string * json)).

Fixpoint assoc {V} (k : string) (d : list (string * V)) : option V :=
  match d with
  | [] => None
  | (k', v) :: d' => if String.eqb k k' then Some v else assoc k d'
  end.

(** [j[k]] for a string key. *)
Definition json_getitem (j : json) (k : string) : result json :=
  match j with
  | JDict d => match assoc k d with Some v => Ok v | None => Raise KeyError end
  | _ => Raise TypeError
  end.

(** [j[0]]. *)
Definition json_first (j : json) : result json :=
  match j with
  | JList (x :: _) => Ok x
  | JList [] => Raise IndexError
  | JStr (String c _) => Ok (JStr (String c EmptyString))
  | JStr EmptyString => Raise IndexError
  | JDict _ => Raise KeyError
  | _ => Raise TypeError
  end.

Definition json_truthy (j : json) : bool :=
  match j with
  | JNull => false
  | JBool b => b
  | JNum x => negb (x =? 0)%float
  | JStr s => negb (String.eqb s EmptyString)
  | JList l => match l with [] => false | _ => true end
  | JDict d => match d with [] => false | _ => true end
  end.

(** [j == s] for a string literal [s]. *)
Definition json_eq_str (j : json) (s : string) : bool :=
  match j with JStr t => String.eqb t s | _ => false end.

(** The float a JSON value denotes in arithmetic or as an argument of
    [math.radians]; anything but a number or a boolean is a [TypeError]. *)
Definition json_float (j : json) : result float :=
  match j with
  | JNum x => Ok x
  | JBool b => Ok (if b then 1%float else 0%float)
  | _ => Raise TypeError
  end.

(** ** features.py: [FeatureEngineer] *)

(** The [googlemaps.Client] methods used by the source.  A call either
    returns the decoded JSON response or raises (transport error, timeout,
    API error).  [distance_matrix g lat lng clat clng] stands for
    [distance_matrix(origins="lat,lng", destinations="clat,clng",
    mode="driving")], [places_nearby g lat lng radius type] for
    [places_nearby(location=(lat, lng), radius=radius, type=type)]. *)
Record Client : Type := {
  distance_matrix : float -> float -> float -> float -> result json;
  places_nearby : float -> float -> float -> string -> result json
}.

(** [self.gmaps] is [None] unless an API key was configured. *)
Record FeatureEngineer : Type := {
  gmaps : option Client
}.

Definition land_type_map : gmap string float :=
  list_to_map [
    ("RESIDENTIAL", 1%float);
    ("COMMERCIAL", 2%float);
    ("AGRICULTURAL", 3%float);
    ("INDUSTRIAL", 4%float)
  ].

Definition city_centers : gmap string (float * float) :=
  list_to_map [
    ("Ernakulam", (9.9312, 76.2673)%float);
    ("Thiruvananthapuram", (8.5241, 76.9366)%float);
    ("Kozhikode", (11.2588, 75.7804)%float);
    ("Bangalore", (12.9716, 77.5946)%float);
    ("Chennai", (13.0827, 80.2707)%float);
    ("Mumbai", (19.0760, 72.8777)%float);
    ("Delhi", (28.7041, 77.1025)%float)
  ].

Definition avg_prices : gmap string (gmap string float) :=
  list_to_map [
    ("Kerala", list_to_map [
       ("Ernakulam", 2800%float);
       ("Thiruvananthapuram", 2500%float);
       ("Kozhikode", 2200%float)]);
    ("Karnataka", list_to_map [("Bangalore", 4200%float)]);
    ("Tamil Nadu", list_to_map [("Chennai", 3800%float)])
  ].

(** The haversine argument [a] of the source, before the square roots. *)
Definition haversine_a (L : Libm) (lat1 lon1 lat2 lon2 : float) : result float :=
  let lat1 := math_radians lat1 in
  let lon1 := math_radians lon1 in
  let lat2 := math_radians lat2 in
  let lon2 := math_radians lon2 in
  let dlat := (lat2 - lat1)%float in
  let dlon := (lon2 - lon1)%float in
  s1 <- math_sin L (dlat / 2)%float ;;
  p1 <- float_pow2 L s1 ;;
  c1 <- math_cos L lat1 ;;
  c2 <- math_cos L lat2 ;;
  s2 <- math_sin L (dlon / 2)%float ;;
  p2 <- float_pow2 L s2 ;;
  Ok (p1 + c1 * c2 * p2)%float.

Definition _haversine_distance (L : Libm) (lat1 lon1 lat2 lon2 : float) : result float :=
  let R := 6371%float in
  a <- haversine_a L lat1 lon1 lat2 lon2 ;;
  q1 <- math_sqrt a ;;
  q2 <- math_sqrt (1 - a)%float ;;
  t <- math_atan2 L q1 q2 ;;
  let c := (2 * t)%float in
  Ok (R * c)%float.

Definition _estimate_distances (L : Libm) (lat lng : float) (district : string)
    : result (gmap string pyval) :=
  let city_center := dict_get_default city_centers district (lat, lng) in
  distance_to_city <- _haversine_distance L lat lng city_center.1 city_center.2 ;;
  Ok (list_to_map [
    ("distance_to_city", PNum distance_to_city);
    ("distance_to_highway", PNum 5.0%float);
    ("distance_to_metro", PNum 10.0%float);
    ("distance_to_school", PNum 2.0%float);
    ("distance_to_hospital", PNum 3.0%float)
  ]).

(** Distance from [(lat, lng)] to the first place of a [places_nearby]
    response, or [default] when the response lists none. *)
Definition nearest_place_distance (L : Libm) (lat lng : float) (response : json)
    (default : float) : result float :=
  results <- json_getitem response "results" ;;
  if json_truthy results then
    first <- json_first results ;;
    geometry <- json_getitem first "geometry" ;;
    loc <- json_getitem geometry "location" ;;
    plat <- json_getitem loc "lat" ;;
    plng <- json_getitem loc "lng" ;;
    plat <- json_float plat ;;
    plng <- json_float plng ;;
    _haversine_distance L lat lng plat plng
  else Ok default.

(** The body of the [try] block of [_calculate_distances]: the dictionary
    [distances] as it stands when the block completes. *)
Definition calculate_distances_try (L : Libm) (g : Client) (lat lng : float)
    (city_center : float * float) : result (gmap string pyval) :=
  let distances : gmap string pyval := ∅ in
  response <- distance_matrix g lat lng city_center.1 city_center.2 ;;
  rows <- json_getitem response "rows" ;;
  row <- json_first rows ;;
  elements <- json_getitem row "elements" ;;
  element <- json_first elements ;;
  status <- json_getitem element "status" ;;
  distance_to_city <-
    (if json_eq_str status "OK" then
       distance <- json_getitem element "distance" ;;
       distance_m <- json_getitem distance "value" ;;
       distance_m <- json_float distance_m ;;
       Ok (distance_m / 1000)%float
     else _haversine_distance L lat lng city_center.1 city_center.2) ;;
  let distances := <["distance_to_city" := PNum distance_to_city]> distances in
  nearby_places <- places_nearby g lat lng 5000%float "school" ;;
  distance_to_school <- nearest_place_distance L lat lng nearby_places 5.0%float ;;
  let distances := <["distance_to_school" := PNum distance_to_school]> distances in
  nearby_hospitals <- places_nearby g lat lng 5000%float "hospital" ;;
  distance_to_hospital <- nearest_place_distance L lat lng nearby_hospitals 3.0%float ;;
  let distances := <["distance_to_hospital" := PNum distance_to_hospital]> distances in
  Ok distances.

Definition _calculate_distances (L : Libm) (g : Client) (lat lng : float)
    (district : string) : result (gmap string pyval) :=
  let city_center := dict_get_default city_centers district (lat, lng) in
  match calculate_distances_try L g lat lng city_center with
  | Raise _ => _estimate_distances L lat lng district
  | Ok distances =>
      let distances := <["distance_to_highway" := PNum 5.0%float]> distances in
      let distances := <["distance_to_metro" := PNum 10.0%float]> distances in
      Ok distances
  end.

Definition _get_avg_price_in_area (district state : string) : float :=
  dict_get_default (dict_get_default avg_prices state ∅) district 2000%float.

(** [road_width or 6.0]: the default replaces [None] and also a zero width,
    which is false as a truth value. *)
Definition road_width_or_default (road_width : option float) : float :=
  match road_width with
  | Some w => if truthy (PNum w) then w else 6.0%float
  | None => 6.0%float
  end.

Definition create_features (L : Libm) (self : FeatureEngineer)
    (area_sqft latitude longitude : float) (district state land_type : string)
    (pincode : option string) (road_width : option float)
    (electricity water_supply : bool) : result (gmap string pyval) :=
  let features : gmap string pyval := list_to_map [
    ("area_sqft", PNum area_sqft);
    ("latitude", PNum latitude);
    ("longitude", PNum longitude);
    ("land_type_encoded", PNum (dict_get_default land_type_map land_type 1%float));
    ("road_width", PNum (road_width_or_default road_width));
    ("electricity", PNum (if electricity then 1%float else 0%float));
    ("water_supply", PNum (if water_supply then 1%float else 0%float));
    ("state", PStr state);
    ("district", PStr district)
  ] in
  features <-
    match gmaps self with
    | Some g =>
        try_except
          (distances <- _calculate_distances L g latitude longitude district ;;
           Ok (dict_update features distances))
          (fun _ =>
             distances <- _estimate_distances L latitude longitude district ;;
             Ok (dict_update features distances))
    | None =>
        distances <- _estimate_distances L latitude longitude district ;;
        Ok (dict_update features distances)
    end ;;
  let avg := _get_avg_price_in_area district state in
  Ok (<["avg_price_in_area" := PNum avg]> features).

(** ** model.py: [PricePredictionModel] *)

(** Estimator state.  [scaler_fitted] is [hasattr(self.scaler, 'mean_')].
    The fitted scaling transform and the regression estimator are
    scikit-learn objects; they are arbitrary functions here, each of which may
    raise. *)
Record PricePredictionModel : Type := {
  scaler_fitted : bool;
  scaler_transform : list pyval -> result (list float);
  model_predict : list float -> result float
}.

Record prediction : Type := {
  price : float;
  price_per_sqft : float;
  confidence : float;
  price_min : float;
  price_max : float;
  factors : gmap string string
}.

Definition feature_names : list string := [
  "area_sqft"; "latitude"; "longitude";
  "distance_to_city"; "distance_to_highway"; "distance_to_metro";
  "distance_to_school"; "distance_to_hospital";
  "road_width"; "electricity"; "water_supply";
  "avg_price_in_area"; "land_type_encoded"
].

Definition base_prices : gmap string (gmap string float) :=
  list_to_map [
    ("Kerala", list_to_map [
       ("Ernakulam", 3000%float);
       ("Thiruvananthapuram", 2800%float);
       ("Kozhikode", 2500%float)]);
    ("Karnataka", list_to_map [("Bangalore", 4500%float); ("Mysore", 2000%float)]);
    ("Tamil Nadu", list_to_map [("Chennai", 4000%float); ("Coimbatore", 2200%float)])
  ].

(** [table.get(key, default)] where the key is an arbitrary Python value:
    only a string can equal one of the table's keys. *)
Definition table_get {V} (table : gmap string V) (key : pyval) (default : V) : V :=
  match key with
  | PStr s => dict_get_default table s default
  | _ => default
  end.

(** The first statements of [_heuristic_prediction]: the base price per
    square foot read from the ['state'] and ['district'] entries. *)
Definition heuristic_base_price (features : gmap string pyval) : float :=
  let state := dict_get_default features "state" (PStr "Kerala") in
  let district := dict_get_default features "district" (PStr "Ernakulam") in
  table_get (table_get base_prices state ∅) district 2000%float.

Definition _heuristic_prediction (features : gmap string pyval) : result prediction :=
  let base_price := heuristic_base_price features in
  near_city <- py_lt (dict_get_default features "distance_to_city" (PInt 100)) 5%float ;;
  let base_price := if near_city then (base_price * 1.3)%float else base_price in
  near_metro <- py_lt (dict_get_default features "distance_to_metro" (PInt 100)) 2%float ;;
  let base_price := if near_metro then (base_price * 1.2)%float else base_price in
  let utilities :=
    truthy (dict_get features "electricity") && truthy (dict_get features "water_supply") in
  let base_price := if utilities then (base_price * 1.1)%float else base_price in
  area <- dict_getitem features "area_sqft" ;;
  predicted_price <- py_mul base_price (negb (near_city || near_metro || utilities)) area ;;
  Ok {|
    price := predicted_price;
    price_per_sqft := base_price;
    confidence := 0.6%float;
    price_min := (predicted_price * 0.8)%float;
    price_max := (predicted_price * 1.2)%float;
    factors := list_to_map [
      ("location", "moderate_impact");
      ("infrastructure",
        if truthy (dict_get features "electricity") then "positive" else "needs_improvement");
      ("note", "Prediction based on market averages (model training in progress)")
    ]
  |}.

(** [x is not None] *)
Definition is_not_none (v : pyval) : bool :=
  match v with PNone => false | _ => true end.

(** Python's [min(a, b)]: [b] when [b < a], otherwise [a]. *)
Definition py_min (a b : float) : float := if (b <? a)%float then b else a.

Definition _calculate_confidence (features : gmap string pyval) : float :=
  let confidence := 0.7%float in
  let confidence :=
    if is_not_none (dict_get features "distance_to_city")
    then (confidence + 0.1)%float else confidence in
  let confidence :=
    if is_not_none (dict_get features "avg_price_in_area")
    then (confidence + 0.15)%float else confidence in
  py_min confidence 0.95%float.

Definition _analyze_factors (features : gmap string pyval) (predicted_price : float)
    : result (gmap string string) :=
  let factors : gmap string string := ∅ in
  high <- py_lt (dict_get_default features "distance_to_city" (PInt 100)) 5%float ;;
  factors <-
    (if high then Ok (<["location" := "high_value_area"]> factors)
     else
       moderate <- py_lt (dict_get_default features "distance_to_city" (PInt 100)) 15%float ;;
       if moderate then Ok (<["location" := "moderate_area"]> factors)
       else Ok (<["location" := "peripheral_area"]> factors)) ;;
  metro <- py_lt (dict_get_default features "distance_to_metro" (PInt 100)) 2%float ;;
  let factors := if metro then <["metro_access" := "excellent"]> factors else factors in
  let factors :=
    if truthy (dict_get features "electricity") && truthy (dict_get features "water_supply")
    then <["infrastructure" := "well_developed"]> factors else factors in
  Ok factors.

(** The body of the [try] block of [predict]. *)
Definition statistical_prediction (self : PricePredictionModel)
    (features : gmap string pyval) : result prediction :=
  if negb (scaler_fitted self) then Raise AttributeError
  else
    let feature_vector :=
      (fun name => dict_get_default features name (PInt 0)) <$> feature_names in
    feature_vector_scaled <- scaler_transform self feature_vector ;;
    predicted_price <- model_predict self feature_vector_scaled ;;
    let confidence := _calculate_confidence features in
    let price_range := (predicted_price * 0.15)%float in
    key_factors <- _analyze_factors features predicted_price ;;
    area <- dict_getitem features "area_sqft" ;;
    per_sqft <- py_div predicted_price area ;;
    Ok {|
      price := predicted_price;
      price_per_sqft := per_sqft;
      confidence := confidence;
      price_min := (predicted_price - price_range)%float;
      price_max := (predicted_price + price_range)%float;
      factors := key_factors
    |}.

Definition predict (self : PricePredictionModel) (features : gmap string pyval)
    : result prediction :=
  try_except (statistical_prediction self features)
             (fun _ => _heuristic_prediction features).

(** ** Auxiliary definitions used in the statements *)

(** The thirteen numeric slots of a feature vector, in the estimator's order. *)
Definition numeric_slots (features : gmap string pyval) : Prop :=
  Forall (fun name => exists x, features !! name = Some (PNum x)) feature_names.

(** The thirteen slots each hold a number, a float or an int. *)
Definition number_slots (features : gmap string pyval) : Prop :=
  Forall (fun name => exists v, features !! name = Some v /\ is_number v = true)
         feature_names.

(** The area is a float, or an int that can be converted to a float both
    by itself and after the exact multiplication by the int base price of
    the table. *)
Definition area_in_float_range (features : gmap string pyval) : Prop :=
  match features !! "area_sqft" with
  | Some (PInt n) =>
      is_ok (int_to_float n) = true /\
      is_ok (int_to_float (int_of_float (heuristic_base_price features) * n)) = true
  | _ => True
  end.

(** An estimator whose scaling transform has not been fitted. *)
Definition untrained (self : PricePredictionModel) : Prop :=
  scaler_fitted self = false.

(** A mapping client every call of which fails. *)
Definition failing_client : Client := {|
  distance_matrix := fun _ _ _ _ => Raise ServiceError;
  places_nearby := fun _ _ _ _ => Raise ServiceError
|}.

Definition always_fails (g : Client) : Prop :=
  (forall a b c d, is_ok (distance_matrix g a b c d) = false) /\
  (forall a b r t, is_ok (places_nearby g a b r t) = false).

(** An estimator that was never trained, and one that always predicts the
    given price. *)
Definition fresh_model : PricePredictionModel := {|
  scaler_fitted := false;
  scaler_transform := fun _ => Raise AttributeError;
  model_predict := fun _ => Raise AttributeError
|}.

Definition constant_model (p : float) : PricePredictionModel := {|
  scaler_fitted := true;
  scaler_transform := fun v => Ok (repeat 0%float (length v));
  model_predict := fun _ => Ok p
|}.

Definition no_maps : FeatureEngineer := {| gmaps := None |}.

Definition valid_coordinates (lat lng : float) : Prop :=
  (abs lat <=? 90)%float = true /\ (abs lng <=? 180)%float = true.

(** A slot that is absent or holds a number. *)
Definition numeric_or_absent (features : gmap string pyval) (name : string) : Prop :=
  match features !! name with
  | Some v => is_numeric v = true
  | None => True
  end.

(** [features.get(name) is not None] *)
Definition has_feature (features : gmap string pyval) (name : string) : bool :=
  is_not_none (dict_get features name).

(** The confidence score in the specification's words: 0.70, plus 0.10 for a
    city distance, plus 0.15 for an area average price, at most 0.95. *)
Definition confidence_score (city avg : bool) : float :=
  py_min (0.7 + (if city then 0.1 else 0) + (if avg then 0.15 else 0))%float 0.95%float.

(** The land-type code in the specification's words. *)
Definition land_type_code (land_type : string) : float :=
  if String.eqb land_type "RESIDENTIAL" then 1%float
  else if String.eqb land_type "COMMERCIAL" then 2%float
  else if String.eqb land_type "AGRICULTURAL" then 3%float
  else if String.eqb land_type "INDUSTRIAL" then 4%float
  else 1%float.

(** The proximity and infrastructure multipliers of the heuristic branch. *)
Definition heuristic_adjust (base : float) (near_city near_metro utilities : bool) : float :=
  let base := if near_city then (base * 1.3)%float else base in
  let base := if near_metro then (base * 1.2)%float else base in
  if utilities then (base * 1.1)%float else base.

(** The distance entries produced by either path of [create_features]. *)
Definition distance_entries (city highway metro school hospital : float)
    : gmap string pyval :=
  list_to_map [
    ("distance_to_city", PNum city);
    ("distance_to_highway", PNum highway);
    ("distance_to_metro", PNum metro);
    ("distance_to_school", PNum school);
    ("distance_to_hospital", PNum hospital)
  ].

(** The dictionary [create_features] returns once the distances are known. *)
Definition feature_vector_of (area lat lng : float) (district state land_type : string)
    (road_width : option float) (electricity water_supply : bool)
    (city school hospital : float) : gmap string pyval :=
  <["avg_price_in_area" := PNum (_get_avg_price_in_area district state)]>
    (dict_update
       (list_to_map [
          ("area_sqft", PNum area);
          ("latitude", PNum lat);
          ("longitude", PNum lng);
          ("land_type_encoded", PNum (dict_get_default land_type_map land_type 1%float));
          ("road_width", PNum (road_width_or_default road_width));
          ("electricity", PNum (if electricity then 1%float else 0%float));
          ("water_supply", PNum (if water_supply then 1%float else 0%float));
          ("state", PStr state);
          ("district", PStr district)])
       (distance_entries city 5 10 school hospital)).

(** Distance to the city centre as the fallback path computes it. *)
Definition estimated_city_distance (L : Libm) (lat lng : float) (district : string)
    : result float :=
  let city_center := dict_get_default city_centers district (lat, lng) in
  _haversine_distance L lat lng city_center.1 city_center.2.

(** [sin(d/2)**2], the term that occurs twice in the haversine formula. *)
Definition sq_sin_half (L : Libm) (d : float) : result float :=
  s <- math_sin L (d / 2)%float ;; float_pow2 L s.

Definition on_ok {A B} (f : A -> B) (r : result A) : result B :=
  match r with Ok a => Ok (f a) | Raise e => Raise e end.

(** The scenario of the specification: 1000 sq ft of residential land at the
    Chennai city centre, utilities at their defaults. *)
Definition chennai_vector : gmap string pyval :=
  feature_vector_of 1000 13.0827 80.2707 "Chennai" "Tamil Nadu" "RESIDENTIAL"
    None true true 0 2 3.

Definition chennai_result : prediction := {|
  price := 5720000.000000001%float;
  price_per_sqft := 5720.000000000001%float;
  confidence := 0.6%float;
  price_min := (5720000.000000001 * 0.8)%float;
  price_max := (5720000.000000001 * 1.2)%float;
  factors := list_to_map [
    ("location", "moderate_impact");
    ("infrastructure", "positive");
    ("note", "Prediction based on market averages (model training in progress)")
  ]
|}.

(** The vector of the scenario with the area given as the Python int
    [10**400], and with a positive area so small that a price divided by it
    is beyond the binary64 range. *)
Definition huge_area_vector : gmap string pyval :=
  <["area_sqft" := PInt (10 ^ 400)]> chennai_vector.

Definition tiny_area_vector : gmap string pyval :=
  <["area_sqft" := PNum 1e-310%float]> chennai_vector.

(** Values returned by the C library (glibc 2.36, x86-64) at the arguments
    that the haversine formula reaches for latitude -11.2587999, longitude
    -104.2196 and the Kozhikode city centre; elsewhere the small-angle
    library. *)
Definition sampled_libm : Libm := {|
  c_sin := fun x =>
    if (x =? 0.19650312895087296)%float then 0.19524095666372043%float
    else if (x =? 1.5707963267948966)%float then 1%float
    else x;
  c_cos := fun x =>
    if (x =? -0.19650312807820833)%float then 0.9807553054535251%float
    else if (x =? 0.1965031298235376)%float then 0.9807553051127653%float
    else 1%float;
  c_atan2 := fun y x => (y / x)%float;
  c_pow := fun x _ => (x * x)%float
|}.

(** Views of a binary64 value through its specification. *)
Definition sf_is_nan (s : spec_float) : bool :=
  match s with S754_nan => true | _ => false end.
Definition sf_is_inf (s : spec_float) : bool :=
  match s with S754_infinity _ => true | _ => false end.
Definition sf_is_zero (s : spec_float) : bool :=
  match s with S754_zero _ => true | _ => false end.
Definition sf_is_finite (s : spec_float) : bool :=
  match s with S754_zero _ | S754_finite _ _ _ => true | _ => false end.
Definition sf_sign (s : spec_float) : bool :=
  match s with
  | S754_zero b | S754_infinity b | S754_finite b _ _ => b
  | S754_nan => false
  end.

(** A zero, or a finite number whose exponent is at most [b]. *)
Definition sf_exp_le (b : Z) (s : spec_float) : Prop :=
  match s with
  | S754_zero _ => True
  | S754_finite _ _ e => (e <= b)%Z
  | _ => False
  end.

(** The rational number a finite binary64 value stands for. *)
Definition exact_value (x : float) : Q :=
  match Prim2SF x with
  | S754_finite s m e =>
      ((if s then -1 else 1) * inject_Z (Z.pos m) * Qpower 2 e)%Q
  | _ => 0%Q
  end.

(** ** Responses of the mapping service in the shape the code reads *)

(** A [distance_matrix] response with one row and one element. *)
Definition distance_response (element : list (string * json)) : json :=
  JDict [("rows", JList [JDict [("elements", JList [JDict element])]])].

(** The element of a route that was found, [value] metres long. *)
Definition route_found (value : float) : list (string * json) :=
  [("status", JStr "OK"); ("distance", JDict [("value", JNum value)])].

(** A [places_nearby] response listing the given places. *)
Definition places_response (places : list json) : json :=
  JDict [("results", JList places)].

(** A client that finds a route of [value] metres and no place nearby. *)
Definition empty_area_client (value : float) : Client := {|
  distance_matrix := fun _ _ _ _ => Ok (distance_response (route_found value));
  places_nearby := fun _ _ _ _ => Ok (places_response [])
|}.

(** A client that finds no route ([status] is not 'OK') and no place nearby. *)
Definition no_route_client (status : string) : Client := {|
  distance_matrix := fun _ _ _ _ => Ok (distance_response [("status", JStr status)]);
  places_nearby := fun _ _ _ _ => Ok (places_response [])
|}.

(** A client that finds a route and then fails on the places search. *)
Definition partial_client (value : float) : Client := {|
  distance_matrix := fun _ _ _ _ => Ok (distance_response (route_found value));
  places_nearby := fun _ _ _ _ => Raise ServiceError
|}.

(** [FeatureEngineer.__init__]: a client is created only for a key that is
    true as a truth value, that is neither [None] nor the empty string;
    [googlemaps.Client(key=...)] may reject the key. *)
Definition FeatureEngineer__init__ (googlemaps_Client : string -> result Client)
    (google_maps_api_key : option string) : result FeatureEngineer :=
  match google_maps_api_key with
  | Some key =>
      if negb (String.eqb key EmptyString) then
        client <- googlemaps_Client key ;; Ok {| gmaps := Some client |}
      else Ok {| gmaps := None |}
  | None => Ok {| gmaps := None |}
  end.

(** ** model.py: construction of [PricePredictionModel]

    An object is described by the attributes the estimator code reads:
    whether it has [mean_], and its [transform] and [predict] methods when it
    has them.  [joblib.load] returns such an object or [None], or raises. *)

Record pyobject : Type := {
  obj_mean_ : bool;
  obj_transform : option (list pyval -> result (list float));
  obj_predict : option (list float -> result float)
}.

Record FileSystem : Type := {
  path_exists : string -> bool;
  joblib_load : string -> result (option pyobject)
}.

(** [StandardScaler()] and [RandomForestRegressor(...)] before fitting: no
    [mean_]; calling the method raises [NotFittedError]. *)
Definition StandardScaler_new : pyobject := {|
  obj_mean_ := false;
  obj_transform := Some (fun _ => Raise ServiceError);
  obj_predict := None
|}.

Definition RandomForestRegressor_new : pyobject := {|
  obj_mean_ := false;
  obj_transform := None;
  obj_predict := Some (fun _ => Raise ServiceError)
|}.

(** The attributes of an instance.  For the three encoder attributes the
    outer [None] means that the attribute was never assigned. *)
Record ModelInstance : Type := {
  inst_model : option pyobject;
  inst_scaler : option pyobject;
  inst_property_encoder : option (option pyobject);
  inst_district_encoder : option (option pyobject);
  inst_trained_feature_names : option (option pyobject)
}.

(** [if os.path.exists(path): self.attr = joblib.load(path)] *)
Definition load_if_exists (fs : FileSystem) (path : string)
    (current : option (option pyobject)) : result (option (option pyobject)) :=
  if path_exists fs path then
    loaded <- joblib_load fs path ;; Ok (Some loaded)
  else Ok current.

Definition load_model (fs : FileSystem) (self : ModelInstance) : result ModelInstance :=
  let model_path := "trained_model.pkl" in
  let scaler_path := "scaler.pkl" in
  let property_encoder_path := "property_type_encoder.pkl" in
  let district_encoder_path := "district_encoder.pkl" in
  let feature_names_path := "feature_names.pkl" in
  if path_exists fs model_path && path_exists fs scaler_path then
    model <- joblib_load fs model_path ;;
    scaler <- joblib_load fs scaler_path ;;
    property_encoder <-
      load_if_exists fs property_encoder_path (inst_property_encoder self) ;;
    district_encoder <-
      load_if_exists fs district_encoder_path (inst_district_encoder self) ;;
    trained_feature_names <-
      load_if_exists fs feature_names_path (inst_trained_feature_names self) ;;
    Ok {|
      inst_model := model;
      inst_scaler := scaler;
      inst_property_encoder := property_encoder;
      inst_district_encoder := district_encoder;
      inst_trained_feature_names := trained_feature_names
    |}
  else
    Ok {|
      inst_model := Some RandomForestRegressor_new;
      inst_scaler := inst_scaler self;
      inst_property_encoder := Some None;
      inst_district_encoder := Some None;
      inst_trained_feature_names := Some None
    |}.

(** [PricePredictionModel.__init__] *)
Definition PricePredictionModel__init__ (fs : FileSystem) : result ModelInstance :=
  load_model fs {|
    inst_model := None;
    inst_scaler := Some StandardScaler_new;
    inst_property_encoder := None;
    inst_district_encoder := None;
    inst_trained_feature_names := None
  |}.

Definition is_loaded (self : ModelInstance) : bool :=
  match inst_model self with Some _ => true | None => false end.

(** [obj.method(...)]: [AttributeError] when the object is [None] or has no
    such method. *)
Definition call_method {A B} (obj : option pyobject)
    (method : pyobject -> option (A -> result B)) (arg : A) : result B :=
  match obj with
  | Some o => match method o with Some f => f arg | None => Raise AttributeError end
  | None => Raise AttributeError
  end.

(** The estimator state that [predict] reads from an instance. *)
Definition estimator_state (self : ModelInstance) : PricePredictionModel := {|
  scaler_fitted := match inst_scaler self with Some o => obj_mean_ o | None => false end;
  scaler_transform := call_method (inst_scaler self) obj_transform;
  model_predict := call_method (inst_model self) obj_predict
|}.

(** The instance that construction leaves when it loads nothing. *)
Definition fresh_instance : ModelInstance := {|
  inst_model := Some RandomForestRegressor_new;
  inst_scaler := Some StandardScaler_new;
  inst_property_encoder := Some None;
  inst_district_encoder := Some None;
  inst_trained_feature_names := Some None
|}.

(** The artifact files [load_model] may read. *)
Definition artifact_paths : list string :=
  ["trained_model.pkl"; "scaler.pkl"; "property_type_encoder.pkl";
   "district_encoder.pkl"; "feature_names.pkl"].

(** A directory without artifacts, and one that holds only the model file. *)
Definition empty_directory : FileSystem := {|
  path_exists := fun _ => false;
  joblib_load := fun _ => Raise ServiceError
|}.

Definition model_file_only : FileSystem := {|
  path_exists := fun path => String.eqb path "trained_model.pkl";
  joblib_load := fun _ => Ok (Some RandomForestRegressor_new)
|}.

(** A directory whose artifacts all exist and cannot be unpickled. *)
Definition corrupt_artifacts : FileSystem := {|
  path_exists := fun _ => true;
  joblib_load := fun _ => Raise ServiceError
|}.

(** ** scraper.py: [PropertyScraper] *)

Definition prices : gmap string (gmap string float) :=
  list_to_map [
    ("Kerala", list_to_map [
       ("Ernakulam", 2800%float);
       ("Thiruvananthapuram", 2500%float);
       ("Kozhikode", 2200%float);
       ("Thrissur", 2100%float);
       ("Kannur", 1900%float)]);
    ("Karnataka", list_to_map [
       ("Bangalore", 4500%float);
       ("Mysore", 2000%float);
       ("Mangalore", 2300%float)]);
    ("Tamil Nadu", list_to_map [
       ("Chennai", 4000%float);
       ("Coimbatore", 2200%float);
       ("Madurai", 1800%float)]);
    ("Maharashtra", list_to_map [
       ("Mumbai", 8000%float);
       ("Pune", 3500%float)])
  ].

Definition _get_avg_price (district state : string) : float :=
  dict_get_default (dict_get_default prices state ∅) district 2000%float.

Definition get_market_data (district state land_type : string)
    : result (gmap string json) :=
  let market_insights : gmap string json := list_to_map [
    ("avg_price_per_sqft", JNum (_get_avg_price district state));
    ("price_trend", JStr "increasing");
    ("growth_rate", JNum 8.5%float);
    ("recent_sales", JNum 15%float);
    ("market_activity", JStr "moderate");
    ("comparable_properties", JList [])
  ] in
  Ok market_insights.

(** ** app.py: the [/predict] endpoint *)

Record PredictionRequest : Type := {
  req_area_sqft : float;
  req_latitude : float;
  req_longitude : float;
  req_district : string;
  req_state : string;
  req_land_type : string;
  req_pincode : option string;
  req_road_width : option float;
  req_electricity : option bool;
  req_water_supply : option bool
}.

Record PredictionResponse : Type := {
  resp_predicted_price : float;
  resp_price_per_sqft : float;
  resp_confidence_score : float;
  resp_confidence_interval : gmap string float;
  resp_key_factors : gmap string string;
  resp_market_insights : gmap string json
}.

(** What the handler produces: a response, or [HTTPException] with its status
    code and detail; the detail is a fixed prefix followed by the text of the
    exception that caused it. *)
Inductive http_outcome : Type :=
  | Response (response : PredictionResponse)
  | HTTPException (status_code : Z) (detail_prefix : string) (cause : exn).

(** The truth value of an optional boolean field ([None] is false). *)
Definition optional_flag (b : option bool) : bool :=
  match b with Some b => b | None => false end.

Definition predict_price (L : Libm) (feature_engineer : FeatureEngineer)
    (model : PricePredictionModel) (request : PredictionRequest) : http_outcome :=
  match
    create_features L feature_engineer
      (req_area_sqft request) (req_latitude request) (req_longitude request)
      (req_district request) (req_state request) (req_land_type request)
      (req_pincode request) (req_road_width request)
      (optional_flag (req_electricity request))
      (optional_flag (req_water_supply request))
  with
  | Raise e => HTTPException 500 "Feature engineering failed: " e
  | Ok features =>
      match predict model features with
      | Raise e => HTTPException 500 "Model prediction failed: " e
      | Ok prediction =>
          let market_data :=
            match
              get_market_data (req_district request) (req_state request)
                (req_land_type request)
            with
            | Ok data => data
            | Raise _ =>
                list_to_map [("market_activity", JStr "Active"); ("growth_rate", JNum 8%float)]
            end in
          Response {|
            resp_predicted_price := price prediction;
            resp_price_per_sqft := price_per_sqft prediction;
            resp_confidence_score := confidence prediction;
            resp_confidence_interval :=
              list_to_map [("min", price_min prediction); ("max", price_max prediction)];
            resp_key_factors := factors prediction;
            resp_market_insights := market_data
          |}
      end
  end.

(** The request of the first test case of test_predictions.py. *)
Definition chennai_request : PredictionRequest := {|
  req_area_sqft := 1000%float;
  req_latitude := 13.0827%float;
  req_longitude := 80.2707%float;
  req_district := "Chennai";
  req_state := "Tamil Nadu";
  req_land_type := "RESIDENTIAL";
  req_pincode := Some "600001";
  req_road_width := None;
  req_electricity := Some true;
  req_water_supply := Some true
|}.

(** The label [_analyze_factors] gives a city distance. *)
Definition location_label (distance_to_city : float) : string :=
  if (distance_to_city <? 5)%float then "high_value_area"
  else if (distance_to_city <? 15)%float then "moderate_area"
  else "peripheral_area".

(** The value a distance entry contributes to a comparison: the number
    stored, or 100 when the entry is absent. *)
Definition distance_or_default (features : gmap string pyval) (name : string) : float :=
  match features !! name with
  | Some (PNum x) => x
  | _ => 100%float
  end.

(** * Properties *)

(** Membership in a list that is written out. *)
Ltac in_list := repeat first [apply list_elem_of_here | apply list_elem_of_further].

Ltac not_in_list H :=
  repeat (apply elem_of_cons in H as [H|H]; [discriminate H|]); by apply elem_of_nil in H.

(** ** Binary64 facts *)

Section float_facts.
Implicit Types x y : float.


Lemma SFcompare_refl s : sf_is_nan s = false -> SFcompare s s = Some Eq.
Proof.
  destruct s as [[]|[]| |[] m e]; simpl; try done;
    intros _; rewrite Z.compare_refl, Pos.compare_cont_refl; done.
Qed.

Lemma is_nan_spec x : is_nan x = sf_is_nan (Prim2SF x).
Proof.
  unfold is_nan. rewrite FloatAxioms.eqb_spec. unfold SFeqb.
  destruct (sf_is_nan (Prim2SF x)) eqn:E.
  - destruct (Prim2SF x); done.
  - rewrite SFcompare_refl; done.
Qed.

Lemma is_infinity_spec x : is_infinity x = sf_is_inf (Prim2SF x).
Proof.
  unfold is_infinity. rewrite FloatAxioms.eqb_spec, FloatAxioms.abs_spec.
  change (Prim2SF infinity) with (S754_infinity false).
  destruct (Prim2SF x) as [[]|[]| |[] m e]; reflexivity.
Qed.

Lemma eqb_zero_spec x : (x =? 0)%float = sf_is_zero (Prim2SF x).
Proof.
  rewrite FloatAxioms.eqb_spec. change (Prim2SF 0) with (S754_zero false).
  destruct (Prim2SF x) as [[]|[]| |[] m e]; reflexivity.
Qed.

Lemma is_finite_spec x :
  is_finite x = negb (sf_is_nan (Prim2SF x) || sf_is_inf (Prim2SF x)).
Proof. unfold is_finite. by rewrite is_nan_spec, is_infinity_spec. Qed.

(** *** Negation *)

Lemma is_nan_opp x : is_nan (- x) = is_nan x.
Proof. rewrite !is_nan_spec, FloatAxioms.opp_spec. by destruct (Prim2SF x). Qed.

Lemma is_infinity_opp x : is_infinity (- x) = is_infinity x.
Proof. rewrite !is_infinity_spec, FloatAxioms.opp_spec. by destruct (Prim2SF x). Qed.

Lemma is_finite_opp x : is_finite (- x) = is_finite x.
Proof. unfold is_finite. by rewrite is_nan_opp, is_infinity_opp. Qed.

Lemma eqb_zero_opp x : (- x =? 0)%float = (x =? 0)%float.
Proof. rewrite !eqb_zero_spec, FloatAxioms.opp_spec. by destruct (Prim2SF x). Qed.

Lemma abs_opp x : abs (- x) = abs x.
Proof.
  apply Prim2SF_inj. rewrite !FloatAxioms.abs_spec, FloatAxioms.opp_spec.
  by destruct (Prim2SF x).
Qed.

Lemma opp_nan x : is_nan x = true -> (- x)%float = x.
Proof.
  rewrite is_nan_spec. intros H. apply Prim2SF_inj. rewrite FloatAxioms.opp_spec.
  by destruct (Prim2SF x).
Qed.

(** *** Commutativity of the product *)

Lemma mul_comm x y : (x * y)%float = (y * x)%float.
Proof.
  apply Prim2SF_inj. rewrite !FloatAxioms.mul_spec. unfold SF64mul.
  destruct (Prim2SF x) as [s| s| |s m e], (Prim2SF y) as [s'| s'| |s' m' e'];
    simpl; rewrite ?(xorb_comm s s'); try reflexivity.
  by rewrite Pos.mul_comm, Z.add_comm.
Qed.

(** *** Rounding does not look at the sign *)

Lemma binary_round_aux_opp s m e l :
  SFopp (binary_round_aux prec emax s m e l) = binary_round_aux prec emax (negb s) m e l.
Proof.
  unfold binary_round_aux.
  destruct (shr_fexp prec emax m e l) as [mrs' e'].
  destruct (shr_fexp prec emax _ e' loc_Exact) as [mrs'' e''].
  destruct (shr_m mrs''); simpl; try reflexivity.
  by destruct (e'' <=? emax - prec)%Z.
Qed.

Lemma binary_round_opp s m e :
  SFopp (binary_round prec emax s m e) = binary_round prec emax (negb s) m e.
Proof.
  unfold binary_round. destruct (shl_align _ _ _) as [mz ez].
  apply binary_round_aux_opp.
Qed.

Lemma binary_normalize_opp z e :
  z <> 0%Z ->
  binary_normalize prec emax (- z) e false = SFopp (binary_normalize prec emax z e false).
Proof.
  destruct z as [|p|p]; simpl; [done | |]; intros _; by rewrite binary_round_opp.
Qed.

(** *** Swapping the operands of a difference *)

Lemma SFsub_swap (a b : spec_float) :
  SF64sub b a = SFopp (SF64sub a b) \/
  (SF64sub b a = S754_zero false /\ SF64sub a b = S754_zero false).
Proof.
  unfold SF64sub.
  destruct a as [sa|sa| |sa ma ea], b as [sb|sb| |sb mb eb]; simpl;
    try (destruct sa, sb; simpl; auto; fail); try (destruct sa; simpl; auto; fail);
    try (destruct sb; simpl; auto; fail); auto.
  rewrite (Z.min_comm eb ea).
  set (A := cond_Zopp sa _). set (B := cond_Zopp sb _).
  destruct (Z.eq_dec (A - B)%Z 0%Z) as [E|E].
  - right. replace (B - A)%Z with 0%Z by lia. rewrite E. done.
  - left. replace (B - A)%Z with (- (A - B))%Z by lia.
    by apply binary_normalize_opp.
Qed.

Lemma sub_swap x y :
  (y - x)%float = (- (x - y))%float \/ ((y - x)%float = 0%float /\ (x - y)%float = 0%float).
Proof.
  destruct (SFsub_swap (Prim2SF x) (Prim2SF y)) as [H|[H1 H2]].
  - left. apply Prim2SF_inj. by rewrite FloatAxioms.opp_spec, !FloatAxioms.sub_spec.
  - right. split; apply Prim2SF_inj; rewrite FloatAxioms.sub_spec; done.
Qed.

Lemma div_opp_l x y : (- x / y)%float = (- (x / y))%float.
Proof.
  apply Prim2SF_inj. rewrite FloatAxioms.opp_spec, !FloatAxioms.div_spec, FloatAxioms.opp_spec.
  unfold SF64div.
  destruct (Prim2SF x) as [s| s| |s m e], (Prim2SF y) as [s'| s'| |s' m' e'];
    simpl; rewrite ?negb_xorb_l; try reflexivity.
  destruct (SFdiv_core_binary _ _ _ _ _ _) as [[mz ez] lz].
  by rewrite binary_round_aux_opp, negb_xorb_l.
Qed.

Lemma sub_diag x : is_finite x = true -> (x - x)%float = 0%float.
Proof.
  rewrite is_finite_spec. intros H. apply Prim2SF_inj.
  rewrite FloatAxioms.sub_spec. unfold SF64sub.
  destruct (Prim2SF x) as [[]|s| |s m e]; simpl in *; try done.
  by rewrite Z.sub_diag.
Qed.

(** *** Products of small numbers stay finite *)

Lemma digits2_pos_size p : digits2_pos p = Pos.size p.
Proof. induction p; simpl; by rewrite ?IHp. Qed.

Lemma Zdigits2_le m k :
  (0 <= k)%Z -> (0 <= m < 2 ^ k)%Z -> (Zdigits2 m <= k)%Z.
Proof.
  intros Hk [Hm Hlt]. destruct m as [|p|p]; simpl; [lia| |lia].
  rewrite digits2_pos_size.
  destruct (Z.le_gt_cases (Z.pos (Pos.size p)) k) as [|Hgt]; [done|exfalso].
  pose proof (Pos.size_le p) as Hs.
  assert (2 ^ Z.pos (Pos.size p) <= 2 * Z.pos p)%Z as Hs'.
  { change (2 * Z.pos p)%Z with (Z.pos p~0).
    change 2%Z with (Z.pos 2). rewrite <- Pos2Z.inj_pow. lia. }
  assert (2 ^ (k + 1) <= 2 ^ Z.pos (Pos.size p))%Z by (apply Z.pow_le_mono_r; lia).
  rewrite Z.pow_add_r in * by lia. lia.
Qed.

Lemma pos_lt_pow_size p : (Z.pos p < 2 ^ Z.pos (digits2_pos p))%Z.
Proof.
  rewrite digits2_pos_size. pose proof (Pos.size_gt p) as H.
  change 2%Z with (Z.pos 2). rewrite <- Pos2Z.inj_pow. lia.
Qed.

Lemma shr_1_bound mrs :
  (0 <= shr_m mrs)%Z -> (0 <= shr_m (shr_1 mrs) <= shr_m mrs)%Z.
Proof.
  destruct mrs as [m r t]; simpl. destruct m as [|[p|p|]|p]; simpl; lia.
Qed.

Lemma iter_shr_1_bound n : forall mrs,
  (0 <= shr_m mrs)%Z -> (0 <= shr_m (SpecFloat.iter_pos shr_1 n mrs) <= shr_m mrs)%Z.
Proof.
  induction n as [n IH|n IH|]; intros mrs H; simpl.
  - pose proof (shr_1_bound mrs H) as H1.
    pose proof (IH (shr_1 mrs) ltac:(lia)) as H2.
    pose proof (IH (SpecFloat.iter_pos shr_1 n (shr_1 mrs)) ltac:(lia)). lia.
  - pose proof (IH mrs H) as H1.
    pose proof (IH (SpecFloat.iter_pos shr_1 n mrs) ltac:(lia)). lia.
  - by apply shr_1_bound.
Qed.

Lemma shr_fexp_bound m e l k mrs' e' :
  shr_fexp prec emax m e l = (mrs', e') ->
  (0 <= k)%Z -> (0 <= m < 2 ^ k)%Z ->
  (0 <= shr_m mrs' <= m)%Z /\ (e' <= Z.max e (Z.max (k + e - 53) (-1074)))%Z.
Proof.
  unfold shr_fexp, shr. intros Heq Hk Hm.
  pose proof (Zdigits2_le m k Hk Hm) as Hd.
  assert (shr_m (shr_record_of_loc m l) = m) as Hrec
    by (destruct l as [|[]]; reflexivity).
  unfold fexp, SpecFloat.emin, prec, emax in *.
  destruct (_ - e)%Z as [|n|n] eqn:En; inversion Heq; subst; clear Heq;
    rewrite ?Hrec; try (split; lia).
  pose proof (iter_shr_1_bound n (shr_record_of_loc m l)) as H.
  rewrite Hrec in H. split; [apply H; lia | lia].
Qed.

Lemma round_nearest_even_bound m l :
  (m <= round_nearest_even m l <= m + 1)%Z.
Proof. destruct l as [|[]]; simpl; try lia. destruct (Z.even m); lia. Qed.

Lemma binary_round_aux_finite s p e l :
  (Z.pos p < 2 ^ 106)%Z -> (e <= 800)%Z ->
  binary_round_aux prec emax s (Z.pos p) e l = S754_zero s \/
  exists m' e', binary_round_aux prec emax s (Z.pos p) e l = S754_finite s m' e'.
Proof.
  intros Hp He. unfold binary_round_aux.
  destruct (shr_fexp prec emax (Z.pos p) e l) as [mrs1 e1] eqn:E1.
  apply (shr_fexp_bound _ _ _ 106) in E1 as [Hm1 He1]; [|lia..].
  set (m1 := round_nearest_even _ _).
  pose proof (round_nearest_even_bound (shr_m mrs1) (loc_of_shr_record mrs1)) as Hr.
  fold m1 in Hr.
  destruct (shr_fexp prec emax m1 e1 loc_Exact) as [mrs2 e2] eqn:E2.
  apply (shr_fexp_bound _ _ _ 107) in E2 as [Hm2 He2]; [|lia|].
  2:{ change (2 ^ 107)%Z with (2 * 2 ^ 106)%Z. lia. }
  destruct (shr_m mrs2) as [|q|q]; [by left| |lia].
  right. exists q, e2.
  replace (e2 <=? emax - prec)%Z with true; [done|].
  symmetry. apply Z.leb_le. unfold emax, prec. lia.
Qed.


Lemma leb_exp_le x c mc ec :
  Prim2SF c = S754_finite false mc ec ->
  (abs x <=? c)%float = true -> sf_exp_le ec (Prim2SF x).
Proof.
  intros Hc. rewrite FloatAxioms.leb_spec, FloatAxioms.abs_spec, Hc. unfold SFleb.
  destruct (Prim2SF x) as [sx|sx| |sx m e]; simpl; try done.
  destruct (e ?= ec)%Z eqn:E; try done.
  - apply Z.compare_eq in E. lia.
  - rewrite Z.compare_lt_iff in E. lia.
Qed.

Lemma valid_mantissa_lt x s m e :
  Prim2SF x = S754_finite s m e -> (Z.pos m < 2 ^ 53)%Z.
Proof.
  intros H. pose proof (Prim2SF_valid x) as V. rewrite H in V. simpl in V.
  unfold bounded, canonical_mantissa, fexp, SpecFloat.emin, prec, emax in V.
  apply andb_prop in V as [V _]. apply Z.eqb_eq in V.
  pose proof (pos_lt_pow_size m) as Hlt.
  assert (Z.pos (digits2_pos m) <= 53)%Z by lia.
  assert (2 ^ Z.pos (digits2_pos m) <= 2 ^ 53)%Z by (apply Z.pow_le_mono_r; lia).
  lia.
Qed.


Lemma mul_small_finite x y bx by_ :
  sf_exp_le bx (Prim2SF x) -> sf_exp_le by_ (Prim2SF y) -> (bx + by_ <= 800)%Z ->
  sf_is_finite (Prim2SF (x * y)) = true /\
  sf_sign (Prim2SF (x * y)) = xorb (sf_sign (Prim2SF x)) (sf_sign (Prim2SF y)).
Proof.
  intros Hx Hy Hb. rewrite FloatAxioms.mul_spec. unfold SF64mul.
  destruct (Prim2SF x) as [sx|sx| |sx mx ex] eqn:Ex; try done;
    destruct (Prim2SF y) as [sy|sy| |sy my ey] eqn:Ey; try done.
  simpl in *.
  pose proof (valid_mantissa_lt _ _ _ _ Ex). pose proof (valid_mantissa_lt _ _ _ _ Ey).
  destruct (binary_round_aux_finite (xorb sx sy) (mx * my) (ex + ey) loc_Exact)
    as [->|(m' & e' & ->)]; [|lia|done|done].
  rewrite Pos2Z.inj_mul. change (2 ^ 106)%Z with (2 ^ 53 * 2 ^ 53)%Z.
  apply Z.mul_lt_mono_nonneg; lia.
Qed.
End float_facts.

(** ** The haversine distance *)

Section haversine.
Context (L : Libm) (HL : LibmLaws L).

Lemma math_1_raises f x e : math_1 f x = Raise e -> e = ValueError.
Proof.
  unfold math_1. destruct (_ && _); [congruence|]. destruct (_ && _); congruence.
Qed.

Lemma math_sin_opp x : math_sin L (- x) = on_ok opp (math_sin L x).
Proof.
  unfold math_sin, math_1. rewrite (sin_odd L HL).
  rewrite !is_nan_opp, is_infinity_opp, is_finite_opp.
  destruct (_ && _); [done|]. by destruct (_ && _).
Qed.

Lemma float_pow2_opp v : float_pow2 L (- v) = float_pow2 L v.
Proof.
  unfold float_pow2. rewrite is_nan_opp, is_infinity_opp, eqb_zero_opp, abs_opp.
  destruct (is_nan v) eqn:E; [|done]. by rewrite opp_nan.
Qed.

Lemma sq_sin_half_opp d : sq_sin_half L (- d) = sq_sin_half L d.
Proof.
  unfold sq_sin_half. rewrite div_opp_l, math_sin_opp.
  destruct (math_sin L (d / 2)) as [s|e]; simpl; [|done]. apply float_pow2_opp.
Qed.

Lemma sq_sin_half_swap u v : sq_sin_half L (v - u) = sq_sin_half L (u - v).
Proof.
  destruct (sub_swap u v) as [->|[-> ->]]; [apply sq_sin_half_opp|done].
Qed.

Lemma haversine_a_unfold lat1 lon1 lat2 lon2 :
  haversine_a L lat1 lon1 lat2 lon2 =
    (p1 <- sq_sin_half L (math_radians lat2 - math_radians lat1) ;;
     c1 <- math_cos L (math_radians lat1) ;;
     c2 <- math_cos L (math_radians lat2) ;;
     p2 <- sq_sin_half L (math_radians lon2 - math_radians lon1) ;;
     Ok (p1 + c1 * c2 * p2)%float).
Proof.
  unfold haversine_a, sq_sin_half.
  destruct (math_sin L _) as [s1|e1]; simpl; [|done].
  destruct (float_pow2 L s1) as [p1|e1]; simpl; [|done].
  destruct (math_cos L _) as [c1|e1]; simpl; [|done].
  destruct (math_cos L _) as [c2|e2]; simpl; [|done].
  by destruct (math_sin L _) as [s2|e2].
Qed.

Lemma haversine_a_sym lat1 lon1 lat2 lon2 :
  haversine_a L lat1 lon1 lat2 lon2 = haversine_a L lat2 lon2 lat1 lon1.
Proof.
  rewrite !haversine_a_unfold.
  rewrite (sq_sin_half_swap (math_radians lat1)), (sq_sin_half_swap (math_radians lon1)).
  destruct (sq_sin_half L (_ - _)) as [p1|e1]; simpl; [|done].
  unfold math_cos.
  destruct (math_1 _ (math_radians lat1)) as [c1|e1] eqn:E1,
           (math_1 _ (math_radians lat2)) as [c2|e2] eqn:E2; simpl.
  - by rewrite (mul_comm c2 c1).
  - done.
  - done.
  - by rewrite (math_1_raises _ _ _ E1), (math_1_raises _ _ _ E2).
Qed.

Lemma haversine_sym lat1 lon1 lat2 lon2 :
  _haversine_distance L lat1 lon1 lat2 lon2 = _haversine_distance L lat2 lon2 lat1 lon1.
Proof. unfold _haversine_distance. by rewrite haversine_a_sym. Qed.

(** *** Distance from a point to itself *)

Lemma leb_one_finite c :
  (abs c <=? 1)%float = true -> is_nan c = false /\ is_infinity c = false.
Proof.
  intros H. apply (leb_exp_le c 1 4503599627370496 (-52)) in H; [|reflexivity].
  rewrite is_nan_spec, is_infinity_spec. by destruct (Prim2SF c).
Qed.

Lemma math_cos_finite x :
  is_finite x = true ->
  math_cos L x = Ok (c_cos L x) /\ (abs (c_cos L x) <=? 1)%float = true.
Proof.
  intros Hx. pose proof (cos_bound L HL x Hx) as Hc. split; [|done].
  apply leb_one_finite in Hc as [Hn Hi].
  unfold math_cos, math_1. by rewrite Hn, Hi.
Qed.

Lemma sq_unit_mul_zero c :
  (abs c <=? 1)%float = true -> (c * c * 0)%float = 0%float.
Proof.
  intros H. apply (leb_exp_le c 1 4503599627370496 (-52)) in H; [|reflexivity].
  destruct (mul_small_finite c c (-52) (-52) H H ltac:(lia)) as [Hf Hs].
  rewrite xorb_nilpotent in Hs.
  apply Prim2SF_inj. rewrite FloatAxioms.mul_spec.
  change (Prim2SF 0) with (S754_zero false).
  destruct (Prim2SF (c * c)) as [s|s| |s m e]; simpl in *; try done; by subst.
Qed.

Lemma haversine_same lat lon :
  is_finite (math_radians lat) = true ->
  is_finite (math_radians lon) = true ->
  _haversine_distance L lat lon lat lon = Ok 0%float.
Proof.
  intros Hlat Hlon. unfold _haversine_distance, haversine_a.
  rewrite !sub_diag by done.
  change (0 / 2)%float with 0%float.
  assert (math_sin L 0 = Ok 0%float) as ->.
  { unfold math_sin, math_1. by rewrite (sin_zero L HL). }
  simpl.
  destruct (math_cos_finite _ Hlat) as [-> Hc]. simpl.
  change (float_pow2 L 0) with (@Ok float 0%float). simpl.
  rewrite sq_unit_mul_zero by done.
  reflexivity.
Qed.

Lemma radians_finite x :
  (abs x <=? 180)%float = true -> is_finite (math_radians x) = true.
Proof.
  intros H. apply (leb_exp_le x 180 6333186975989760 (-45)) in H; [|reflexivity].
  assert (sf_exp_le (-58) (Prim2SF (math_pi / 180))) as Hk by (vm_compute; discriminate).
  destruct (mul_small_finite x (math_pi / 180) (-45) (-58) H Hk ltac:(lia)) as [Hf _].
  rewrite is_finite_spec. unfold math_radians.
  by destruct (Prim2SF (x * (math_pi / 180))).
Qed.

Lemma leb_90_180 x : (abs x <=? 90)%float = true -> (abs x <=? 180)%float = true.
Proof.
  intros H. pose proof (leb_exp_le x 90 6333186975989760 (-46) eq_refl H) as He.
  rewrite FloatAxioms.leb_spec, FloatAxioms.abs_spec.
  change (Prim2SF 180) with (S754_finite false 6333186975989760 (-45)).
  destruct (Prim2SF x) as [s|s| |s m e]; try done.
  unfold SFleb, SFabs, SFcompare. unfold sf_exp_le in He.
  replace (e ?= -45)%Z with Lt; [done|].
  symmetry. apply Z.compare_lt_iff. lia.
Qed.

Lemma haversine_same_valid lat lng :
  valid_coordinates lat lng -> _haversine_distance L lat lng lat lng = Ok 0%float.
Proof.
  intros [Hlat Hlng]. apply haversine_same; apply radians_finite; [|done].
  by apply leb_90_180.
Qed.
End haversine.

(** ** [create_features] *)

Section create_features_facts.
Context (L : Libm).

Lemma estimate_distances_eq lat lng district :
  _estimate_distances L lat lng district =
    (city <- estimated_city_distance L lat lng district ;;
     Ok (distance_entries city 5 10 2 3)).
Proof. reflexivity. Qed.

Lemma estimate_distances_inv lat lng district d :
  _estimate_distances L lat lng district = Ok d ->
  exists city,
    estimated_city_distance L lat lng district = Ok city /\
    d = distance_entries city 5 10 2 3.
Proof.
  rewrite estimate_distances_eq.
  destruct (estimated_city_distance L lat lng district) as [city|e]; simpl; [|done].
  intros [= <-]. by exists city.
Qed.

Lemma calculate_distances_inv g lat lng district d :
  _calculate_distances L g lat lng district = Ok d ->
  _estimate_distances L lat lng district = Ok d \/
  exists city school hospital, d = distance_entries city 5 10 school hospital.
Proof.
  unfold _calculate_distances.
  destruct (calculate_distances_try _ _ _ _ _) as [d0|e] eqn:E; [|by left].
  intros [= <-]. right.
  unfold calculate_distances_try in E.
  repeat match type of E with
  | (bind ?m _ = Ok _) => destruct m; simpl in E; [|done]
  end.
  injection E as <-. eexists _, _, _. reflexivity.
Qed.

(** A client whose first call fails sends [_calculate_distances] to the
    estimation fallback. *)
Lemma calculate_distances_failing g lat lng district :
  always_fails g ->
  _calculate_distances L g lat lng district = _estimate_distances L lat lng district.
Proof.
  intros [Hd _]. unfold _calculate_distances, calculate_distances_try.
  specialize (Hd lat lng
    (dict_get_default city_centers district (lat, lng)).1
    (dict_get_default city_centers district (lat, lng)).2).
  by destruct (distance_matrix g _ _ _ _).
Qed.

Lemma create_features_no_maps self area lat lng district state land_type pincode
    road_width electricity water_supply :
  gmaps self = None ->
  create_features L self area lat lng district state land_type pincode road_width
    electricity water_supply =
    (city <- estimated_city_distance L lat lng district ;;
     Ok (feature_vector_of area lat lng district state land_type road_width
           electricity water_supply city 2 3)).
Proof.
  intros Hg. unfold create_features. rewrite Hg, estimate_distances_eq.
  by destruct (estimated_city_distance L lat lng district).
Qed.

Lemma create_features_inv self area lat lng district state land_type pincode
    road_width electricity water_supply fv :
  create_features L self area lat lng district state land_type pincode road_width
    electricity water_supply = Ok fv ->
  exists city school hospital,
    fv = feature_vector_of area lat lng district state land_type road_width
           electricity water_supply city school hospital.
Proof.
  destruct (gmaps self) as [g|] eqn:Hg.
  - unfold create_features. rewrite Hg.
    destruct (_calculate_distances L g lat lng district) as [d|e] eqn:Ec; simpl.
    + intros [= <-].
      apply calculate_distances_inv in Ec as [Ec|(city & school & hospital & ->)].
      * apply estimate_distances_inv in Ec as (city & _ & ->).
        by exists city, 2%float, 3%float.
      * by exists city, school, hospital.
    + destruct (_estimate_distances L lat lng district) as [d|e'] eqn:Ee; simpl; [|done].
      intros [= <-].
      apply estimate_distances_inv in Ee as (city & _ & ->).
      by exists city, 2%float, 3%float.
  - rewrite create_features_no_maps by done.
    destruct (estimated_city_distance L lat lng district) as [city|e]; simpl; [|done].
    intros [= <-]. by exists city, 2%float, 3%float.
Qed.

(** Whenever the fallback distance to the city centre can be computed,
    [create_features] returns, whatever the mapping client does. *)
Lemma create_features_returns self area lat lng district state land_type pincode
    road_width electricity water_supply city :
  estimated_city_distance L lat lng district = Ok city ->
  is_ok (create_features L self area lat lng district state land_type pincode road_width
           electricity water_supply) = true.
Proof.
  intros Hc. destruct (gmaps self) as [g|] eqn:Hg.
  - unfold create_features. rewrite Hg, estimate_distances_eq, Hc.
    by destruct (_calculate_distances L g lat lng district).
  - rewrite create_features_no_maps, Hc by done. done.
Qed.

Lemma feature_vector_of_numeric area lat lng district state land_type road_width
    electricity water_supply city school hospital :
  numeric_slots (feature_vector_of area lat lng district state land_type road_width
                   electricity water_supply city school hospital).
Proof.
  unfold numeric_slots, feature_vector_of.
  generalize (_get_avg_price_in_area district state).
  generalize (dict_get_default land_type_map land_type 1%float).
  generalize (road_width_or_default road_width).
  intros w code avg.
  repeat constructor; eexists; reflexivity.
Qed.

(** Every vector [create_features] returns has the thirteen numeric slots. *)
Lemma create_features_slots self area lat lng district state land_type pincode
    road_width electricity water_supply fv :
  create_features L self area lat lng district state land_type pincode road_width
    electricity water_supply = Ok fv ->
  numeric_slots fv.
Proof.
  intros H. apply create_features_inv in H as (city & school & hospital & ->).
  apply feature_vector_of_numeric.
Qed.

(** The haversine argument above one makes the second square root fail. *)
Lemma haversine_domain_error lat1 lon1 lat2 lon2 :
  haversine_a L lat1 lon1 lat2 lon2 = Ok 1.0000000000000002%float ->
  _haversine_distance L lat1 lon1 lat2 lon2 = Raise ValueError.
Proof. unfold _haversine_distance. by intros ->. Qed.
End create_features_facts.

(** ** [predict] *)

Section predict_facts.
Implicit Types (M : PricePredictionModel) (fv : gmap string pyval) (r : prediction).

Lemma numeric_slot fv name :
  numeric_slots fv -> name ∈ feature_names -> exists x, fv !! name = Some (PNum x).
Proof. unfold numeric_slots. rewrite Forall_forall. auto. Qed.

Lemma predict_untrained M fv :
  untrained M -> predict M fv = _heuristic_prediction fv.
Proof. unfold untrained, predict, statistical_prediction. by intros ->. Qed.

Lemma predict_fallback M fv e :
  statistical_prediction M fv = Raise e -> predict M fv = _heuristic_prediction fv.
Proof. unfold predict. by intros ->. Qed.

Lemma predict_statistical M fv r :
  statistical_prediction M fv = Ok r -> predict M fv = Ok r.
Proof. unfold predict. by intros ->. Qed.

Lemma heuristic_returns fv :
  (exists a, fv !! "area_sqft" = Some (PNum a)) ->
  numeric_or_absent fv "distance_to_city" ->
  numeric_or_absent fv "distance_to_metro" ->
  exists r, _heuristic_prediction fv = Ok r.
Proof.
  intros [a Ha] Hc Hm. unfold _heuristic_prediction, numeric_or_absent in *.
  unfold dict_get_default, dict_getitem. rewrite Ha.
  destruct (fv !! "distance_to_city") as [[]|]; try done;
    destruct (fv !! "distance_to_metro") as [[]|]; try done; simpl; eauto.
Qed.

Lemma numeric_slot_or_absent fv name :
  numeric_slots fv -> name ∈ feature_names -> numeric_or_absent fv name.
Proof.
  intros H Hin. destruct (numeric_slot fv name H Hin) as [x Hx].
  unfold numeric_or_absent. by rewrite Hx.
Qed.

Lemma heuristic_returns_numeric fv :
  numeric_slots fv -> exists r, _heuristic_prediction fv = Ok r.
Proof.
  intros H. apply heuristic_returns.
  - apply (numeric_slot fv); [done|]. unfold feature_names. set_solver.
  - apply numeric_slot_or_absent; [done|]. unfold feature_names. set_solver.
  - apply numeric_slot_or_absent; [done|]. unfold feature_names. set_solver.
Qed.

Lemma number_slot fv name :
  number_slots fv -> name ∈ feature_names ->
  exists v, fv !! name = Some v /\ is_number v = true.
Proof. unfold number_slots. rewrite Forall_forall. auto. Qed.

(** The heuristic branch returns when the two distances it reads and the
    area are numbers, the area within the range of a float. *)
Lemma heuristic_returns_in_range fv :
  (exists v, fv !! "distance_to_city" = Some v /\ is_number v = true) ->
  (exists v, fv !! "distance_to_metro" = Some v /\ is_number v = true) ->
  (exists v, fv !! "area_sqft" = Some v /\ is_number v = true) ->
  area_in_float_range fv ->
  exists r, _heuristic_prediction fv = Ok r.
Proof.
  intros (vc & Hc & Hnc) (vm & Hm & Hnm) (va & Ha & Hna) Hr.
  unfold area_in_float_range in Hr. rewrite Ha in Hr.
  unfold _heuristic_prediction, dict_get_default at 1 2, dict_getitem.
  rewrite Ha, Hc, Hm.
  assert (exists c, py_lt vc 5 = Ok c) as [c ->] by (destruct vc; try done; simpl; eauto).
  assert (exists m, py_lt vm 2 = Ok m) as [m ->] by (destruct vm; try done; simpl; eauto).
  simpl. set (u := truthy _ && truthy _).
  destruct va as [a|n| |]; try done; simpl; [eauto|].
  destruct Hr as [H1 H2].
  destruct (int_to_float n) as [x|] eqn:En; [|done].
  destruct c, m, u; simpl; rewrite ?En; simpl; eauto.
  destruct (int_to_float (_ * n)); [simpl; eauto|done].
Qed.

Lemma heuristic_inv fv r :
  _heuristic_prediction fv = Ok r ->
  confidence r = 0.6%float /\
  price_min r = (price r * 0.8)%float /\
  price_max r = (price r * 1.2)%float /\
  exists v near_city near_metro,
    let utilities :=
      truthy (dict_get fv "electricity") && truthy (dict_get fv "water_supply") in
    fv !! "area_sqft" = Some v /\
    py_mul (price_per_sqft r) (negb (near_city || near_metro || utilities)) v
      = Ok (price r) /\
    price_per_sqft r =
      heuristic_adjust (heuristic_base_price fv) near_city near_metro utilities.
Proof.
  unfold _heuristic_prediction.
  destruct (py_lt _ 5) as [c|]; simpl; [|done].
  destruct (py_lt _ 2) as [m|]; simpl; [|done].
  unfold dict_getitem. destruct (fv !! "area_sqft") as [v|]; simpl; [|done].
  destruct (py_mul _ _ v) as [p|] eqn:Ep; simpl; [|done].
  intros [= <-]; simpl. repeat split. exists v, c, m. done.
Qed.

Lemma statistical_inv M fv r :
  statistical_prediction M fv = Ok r ->
  scaler_fitted M = true /\
  confidence r = _calculate_confidence fv /\
  price_min r = (price r - price r * 0.15)%float /\
  price_max r = (price r + price r * 0.15)%float /\
  exists v, fv !! "area_sqft" = Some v /\ py_div (price r) v = Ok (price_per_sqft r).
Proof.
  unfold statistical_prediction.
  destruct (scaler_fitted M); simpl; [|done].
  destruct (scaler_transform M _) as [x|]; simpl; [|done].
  destruct (model_predict M x) as [p|]; simpl; [|done].
  destruct (_analyze_factors fv p) as [k|]; simpl; [|done].
  unfold dict_getitem. destruct (fv !! "area_sqft") as [v|]; simpl; [|done].
  destruct (py_div p v) as [q|] eqn:Eq; simpl; [|done].
  intros [= <-]; simpl. eauto 10.
Qed.

(** The code's running sum agrees with the specification's formula. *)
Lemma calculate_confidence_eq fv :
  _calculate_confidence fv =
    confidence_score (has_feature fv "distance_to_city") (has_feature fv "avg_price_in_area").
Proof.
  unfold _calculate_confidence, has_feature, confidence_score.
  by destruct (is_not_none _), (is_not_none _).
Qed.

Lemma confidence_score_range city avg :
  (0.7 <=? confidence_score city avg)%float = true /\
  (confidence_score city avg <=? 0.95)%float = true.
Proof. by destruct city, avg. Qed.
End predict_facts.

(** ** Tables and sample data *)

Lemma small_angle_laws : LibmLaws small_angle_libm.
Proof. split; [done|done|]. intros x _. reflexivity. Qed.

Lemma city_centers_valid district lat lng :
  city_centers !! district = Some (lat, lng) -> valid_coordinates lat lng.
Proof.
  unfold city_centers. intros H. apply elem_of_list_to_map_2 in H.
  repeat (apply elem_of_cons in H as [[= -> -> ->]|H]; [by split|]).
  by apply elem_of_nil in H.
Qed.

Lemma land_type_map_code land_type :
  dict_get_default land_type_map land_type 1%float = land_type_code land_type.
Proof.
  unfold dict_get_default, land_type_map, land_type_code, list_to_map; simpl.
  repeat (rewrite lookup_insert; case_decide as E;
          [subst; reflexivity | apply String.eqb_neq in E; rewrite String.eqb_sym, E; clear E]).
  by rewrite lookup_empty.
Qed.

Lemma chennai_vector_numeric : numeric_slots chennai_vector.
Proof. apply feature_vector_of_numeric. Qed.

(** The Chennai scenario, for any C library satisfying [LibmLaws]. *)
Lemma chennai_features L :
  LibmLaws L ->
  create_features L no_maps 1000 13.0827 80.2707 "Chennai" "Tamil Nadu" "RESIDENTIAL"
    None None true true = Ok chennai_vector.
Proof.
  intros HL. rewrite create_features_no_maps by done.
  unfold estimated_city_distance.
  change (dict_get_default city_centers "Chennai" _) with (13.0827%float, 80.2707%float).
  simpl fst; simpl snd.
  rewrite (haversine_same_valid L HL) by (by split). reflexivity.
Qed.

Lemma chennai_heuristic : _heuristic_prediction chennai_vector = Ok chennai_result.
Proof. vm_compute. reflexivity. Qed.

Lemma float_neq_5720 : (5720.000000000001 <> 5720)%float.
Proof. intros H. apply (f_equal Prim2SF) in H. vm_compute in H. discriminate. Qed.

(** C1 (as amended): for every estimator state and every feature vector
    (a dictionary of floats, ints, strings and [None]) whose thirteen slots
    hold numbers, floats or ints, and whose area is within the range of a
    float (it is a float, or an int that converts to a float by itself and
    after multiplication by the table's base price), [predict] returns a
    result and propagates no exception; the result is the heuristic one when
    the scaling transform is unfitted and whenever the statistical branch
    raises. *)
Theorem predict_total (M : PricePredictionModel) (fv : gmap string pyval) :
  number_slots fv ->
  area_in_float_range fv ->
  (exists r, predict M fv = Ok r) /\
  (exists r, _heuristic_prediction fv = Ok r) /\
  (untrained M -> predict M fv = _heuristic_prediction fv) /\
  (forall e, statistical_prediction M fv = Raise e ->
             predict M fv = _heuristic_prediction fv).
Proof.
  intros Hn Ha.
  assert (exists rh, _heuristic_prediction fv = Ok rh) as [rh Hh].
  { apply heuristic_returns_in_range; [..|done];
      apply (number_slot fv); try done; unfold feature_names; in_list. }
  split; [|split; [by exists rh|split]].
  - destruct (statistical_prediction M fv) as [r|e] eqn:E.
    + exists r. by apply predict_statistical.
    + exists rh. by rewrite (predict_fallback M fv e).
  - apply predict_untrained.
  - intros e. apply predict_fallback.
Qed.

Lemma predict_total_witness :
  (exists r, predict fresh_model chennai_vector = Ok r) /\
  (exists r, predict fresh_model (<["area_sqft" := PInt 1000]> chennai_vector) = Ok r).
Proof.
  split.
  - refine (proj1 (predict_total fresh_model chennai_vector _ _)).
    + unfold number_slots, feature_names. repeat constructor; eexists; by vm_compute.
    + by vm_compute.
  - refine (proj1 (predict_total fresh_model (<["area_sqft" := PInt 1000]> chennai_vector)
                     _ _)).
    + unfold number_slots, feature_names. repeat constructor; eexists; by vm_compute.
    + by vm_compute.
Defined.

(** C1, the claim as first stated: a vector whose thirteen slots all hold
    numbers can make [predict] raise.  With the area given as the int
    [10**400] the heuristic branch multiplies the float base price by it,
    the conversion of the int raises [OverflowError], and [predict], which
    calls the heuristic branch from its exception handler, propagates the
    error. *)
Lemma predict_int_area_overflow :
  number_slots huge_area_vector /\
  huge_area_vector !! "area_sqft" = Some (PInt (10 ^ 400)) /\
  untrained fresh_model /\
  _heuristic_prediction huge_area_vector = Raise OverflowError /\
  predict fresh_model huge_area_vector = Raise OverflowError /\
  ~ area_in_float_range huge_area_vector /\
  ~ (forall M fv, number_slots fv -> exists r, predict M fv = Ok r).
Proof.
  assert (Hn : number_slots huge_area_vector).
  { unfold number_slots, feature_names. repeat constructor; eexists; by vm_compute. }
  assert (Hp : predict fresh_model huge_area_vector = Raise OverflowError)
    by (vm_compute; reflexivity).
  split; [done|]. split; [by vm_compute|]. split; [reflexivity|].
  split; [vm_compute; reflexivity|]. split; [done|].
  split; [by vm_compute; intros [? _]|].
  intros H. destruct (H fresh_model huge_area_vector Hn) as [r Hr]. congruence.
Qed.

(** C2 (as amended): for the Chennai scenario, with no geocoding client and an
    untrained estimator, the pipeline takes the heuristic branch with
    distance_to_city 0 and distance_to_metro 10 and returns the binary64
    product 4000 * 1.3 * 1.1 = 5720.000000000001 as price per unit area,
    5720000.000000001 as point price, and confidence 0.6. *)
Theorem chennai_scenario (L : Libm) (M : PricePredictionModel) :
  LibmLaws L -> untrained M ->
  exists fv r,
    create_features L no_maps 1000 13.0827 80.2707 "Chennai" "Tamil Nadu" "RESIDENTIAL"
      None None true true = Ok fv /\
    fv !! "distance_to_city" = Some (PNum 0) /\
    fv !! "distance_to_metro" = Some (PNum 10) /\
    predict M fv = _heuristic_prediction fv /\
    predict M fv = Ok r /\
    price_per_sqft r = (4000 * 1.3 * 1.1)%float /\
    price_per_sqft r = 5720.000000000001%float /\
    price r = 5720000.000000001%float /\
    confidence r = 0.6%float.
Proof.
  intros HL HM. exists chennai_vector, chennai_result.
  split; [by apply chennai_features|].
  rewrite (predict_untrained M _ HM), chennai_heuristic.
  repeat split; reflexivity.
Qed.

Lemma chennai_scenario_witness :
  exists fv r,
    create_features small_angle_libm no_maps 1000 13.0827 80.2707 "Chennai" "Tamil Nadu"
      "RESIDENTIAL" None None true true = Ok fv /\
    predict fresh_model fv = Ok r /\
    price_per_sqft r = 5720.000000000001%float.
Proof.
  destruct (chennai_scenario small_angle_libm fresh_model small_angle_laws eq_refl)
    as (fv & r & H1 & _ & _ & _ & H2 & _ & H3 & _).
  exists fv, r. auto.
Defined.

(** C2 (as stated) fails: whatever C library satisfying [LibmLaws] and whatever
    untrained estimator are used, the pipeline does not return 5720 as price
    per unit area for the Chennai scenario. *)
Lemma chennai_price_not_5720 :
  ~ exists L M fv r,
      LibmLaws L /\ untrained M /\
      create_features L no_maps 1000 13.0827 80.2707 "Chennai" "Tamil Nadu" "RESIDENTIAL"
        None None true true = Ok fv /\
      predict M fv = Ok r /\
      price_per_sqft r = 5720%float.
Proof.
  intros (L & M & fv & r & HL & HM & Hfv & Hr & Hp).
  rewrite (chennai_features L HL) in Hfv. injection Hfv as <-.
  rewrite (predict_untrained M _ HM), chennai_heuristic in Hr. injection Hr as <-.
  by apply float_neq_5720.
Qed.



(** C4 (as amended): when the statistical branch completes, [predict] returns
    its result; the confidence is 0.70, plus 0.10 if a city distance is
    present, plus 0.15 if an area average price is present, at most 0.95, hence
    within [0.70, 0.95]; and the interval is
    [price - price * 0.15, price + price * 0.15] in binary64 arithmetic. *)
Theorem statistical_confidence_interval (M : PricePredictionModel) (fv : gmap string pyval)
    (r : prediction) :
  statistical_prediction M fv = Ok r ->
  scaler_fitted M = true /\
  predict M fv = Ok r /\
  confidence r =
    confidence_score (has_feature fv "distance_to_city") (has_feature fv "avg_price_in_area") /\
  (0.7 <=? confidence r)%float = true /\
  (confidence r <=? 0.95)%float = true /\
  price_min r = (price r - price r * 0.15)%float /\
  price_max r = (price r + price r * 0.15)%float.
Proof.
  intros H. pose proof (predict_statistical M fv r H) as Hp.
  apply statistical_inv in H as (Hs & Hc & Hmin & Hmax & _).
  rewrite calculate_confidence_eq in Hc.
  pose proof (confidence_score_range (has_feature fv "distance_to_city")
                (has_feature fv "avg_price_in_area")) as [Hlo Hhi].
  rewrite <- Hc in Hlo, Hhi. auto 10.
Qed.

Lemma statistical_confidence_interval_witness :
  exists r, statistical_prediction (constant_model 5720000) chennai_vector = Ok r /\
            confidence r = 0.95%float /\ price_max r = 6578000%float.
Proof.
  destruct (statistical_prediction (constant_model 5720000) chennai_vector) as [r|e] eqn:E;
    [|vm_compute in E; discriminate].
  exists r. split; [reflexivity|].
  destruct (statistical_confidence_interval _ _ _ E) as (_ & _ & Hc & _ & _ & _ & Hmax).
  assert (price r = 5720000%float) as Hp by (vm_compute in E; by injection E as <-).
  rewrite Hc, Hmax, Hp. split; reflexivity.
Defined.

(** C4 (as stated) fails: for a trained estimator that predicts 7661368.73 the
    returned minimum is 6512163.420500001, whereas 0.85 times the price is
    6512163.4205 in binary64; the returned minimum is not even the binary64
    value nearest to the real number 0.85 x price, since 6512163.4205 is
    strictly nearer. *)
Lemma trained_interval_not_scaled :
  exists r,
    scaler_fitted (constant_model 7661368.73) = true /\
    statistical_prediction (constant_model 7661368.73) chennai_vector = Ok r /\
    predict (constant_model 7661368.73) chennai_vector = Ok r /\
    price r = 7661368.73%float /\
    price_min r = 6512163.420500001%float /\
    (0.85 * price r)%float = 6512163.4205%float /\
    price_min r <> (0.85 * price r)%float /\
    (Qabs (exact_value 6512163.4205 - (17 # 20) * exact_value (price r)) <
     Qabs (exact_value (price_min r) - (17 # 20) * exact_value (price r)))%Q.
Proof.
  eexists. split; [reflexivity|]. split; [vm_compute; reflexivity|].
  split; [vm_compute; reflexivity|]. simpl.
  repeat split; try reflexivity.
  intros H. apply (f_equal Prim2SF) in H. vm_compute in H. discriminate.
Qed.

(** C5 (as amended): the result [predict] returns comes from one of the two
    branches.  From the statistical branch: the price per unit area is the
    binary64 quotient of price and area (an int area being converted to a
    float first).  From the heuristic branch: the price is the binary64
    product of the price per unit area and the area, computed exactly as the
    code computes it; for a float area it is literally that product. *)
Theorem price_per_sqft_consistent (M : PricePredictionModel) (fv : gmap string pyval)
    (v : pyval) (r : prediction) :
  fv !! "area_sqft" = Some v ->
  predict M fv = Ok r ->
  (statistical_prediction M fv = Ok r /\
   py_div (price r) v = Ok (price_per_sqft r) /\
   (forall a, v = PNum a -> price_per_sqft r = (price r / a)%float)) \/
  (_heuristic_prediction fv = Ok r /\
   (exists base_is_int, py_mul (price_per_sqft r) base_is_int v = Ok (price r)) /\
   (forall a, v = PNum a -> (price_per_sqft r * a)%float = price r)).
Proof.
  intros Ha Hp. unfold predict in Hp.
  destruct (statistical_prediction M fv) as [r'|e] eqn:E; simpl in Hp.
  - injection Hp as ->. left. split; [done|].
    apply statistical_inv in E as (_ & _ & _ & _ & v' & Hv & Hq).
    rewrite Ha in Hv. injection Hv as <-. split; [done|].
    intros a ->. simpl in Hq. congruence.
  - right. split; [done|].
    apply heuristic_inv in Hp as (_ & _ & _ & v' & c & m & Hv & Hq & _).
    rewrite Ha in Hv. injection Hv as <-. split; [eauto|].
    intros a ->. simpl in Hq. congruence.
Qed.

Lemma price_per_sqft_consistent_witness :
  (price_per_sqft chennai_result * 1000)%float = price chennai_result.
Proof.
  destruct (price_per_sqft_consistent fresh_model chennai_vector (PNum 1000) chennai_result)
    as [[Hs _]|(_ & _ & Hh)]; [by vm_compute|by vm_compute|discriminate Hs|by apply Hh].
Defined.

(** C5, the claim as first stated: a strictly positive area does not make
    the product of price per unit area and area reproduce the price.  With
    the positive area 1e-310 a trained estimator that predicts 5720000
    returns, through the statistical branch, an infinite price per unit
    area; its product with the area is infinite, while the price is
    finite: no tolerance relates the two. *)
Lemma tiny_area_product_infinite :
  exists r,
    numeric_slots tiny_area_vector /\
    tiny_area_vector !! "area_sqft" = Some (PNum 1e-310%float) /\
    (0 <? 1e-310)%float = true /\
    statistical_prediction (constant_model 5720000) tiny_area_vector = Ok r /\
    predict (constant_model 5720000) tiny_area_vector = Ok r /\
    price r = 5720000%float /\
    is_finite (price r) = true /\
    price_per_sqft r = infinity /\
    (price_per_sqft r * 1e-310)%float = infinity /\
    is_finite (price_per_sqft r * 1e-310)%float = false.
Proof.
  eexists. split.
  { unfold numeric_slots, feature_names. repeat constructor; eexists; by vm_compute. }
  split; [by vm_compute|]. split; [reflexivity|].
  split; [vm_compute; reflexivity|]. split; [vm_compute; reflexivity|].
  simpl. repeat split; reflexivity.
Qed.

(** C6: with a mapping client every call of which fails, [create_features]
    behaves exactly as with no client configured: same feature vector, or the
    same exception. *)
Theorem failing_maps_is_fallback (L : Libm) (g : Client)
    (area lat lng : float) (district state land_type : string)
    (pincode : option string) (road_width : option float)
    (electricity water_supply : bool) :
  always_fails g ->
  create_features L {| gmaps := Some g |} area lat lng district state land_type pincode
    road_width electricity water_supply =
  create_features L {| gmaps := None |} area lat lng district state land_type pincode
    road_width electricity water_supply.
Proof.
  intros Hg. unfold create_features. cbn [gmaps].
  rewrite (calculate_distances_failing L g lat lng district Hg).
  by destruct (_estimate_distances L lat lng district).
Qed.

Lemma failing_client_fails : always_fails failing_client.
Proof. by split. Qed.

Lemma failing_maps_is_fallback_witness :
  always_fails failing_client /\
  create_features small_angle_libm {| gmaps := Some failing_client |}
    1000 13.0827 80.2707 "Chennai" "Tamil Nadu" "RESIDENTIAL" None None true true =
  create_features small_angle_libm {| gmaps := None |}
    1000 13.0827 80.2707 "Chennai" "Tamil Nadu" "RESIDENTIAL" None None true true.
Proof.
  split; [exact failing_client_fails|].
  apply failing_maps_is_fallback. exact failing_client_fails.
Defined.

(** C7 (defect): for latitude -11.2587999, longitude -104.2196 and district
    Kozhikode, a C library returning the listed sine, cosine and power values
    makes the haversine argument 1.0000000000000002, the square root of
    [1 - a] raises "math domain error", and [create_features] propagates it
    instead of returning a feature vector. *)
Theorem create_features_domain_error (L : Libm) :
  c_sin L 0.19650312895087296%float = 0.19524095666372043%float ->
  c_sin L 1.5707963267948966%float = 1%float ->
  c_cos L (-0.19650312807820833)%float = 0.9807553054535251%float ->
  c_cos L 0.1965031298235376%float = 0.9807553051127653%float ->
  c_pow L 0.19524095666372043%float 2%float = 0.03811903115896476%float ->
  haversine_a L (-11.2587999) (-104.2196) 11.2588 75.7804 = Ok 1.0000000000000002%float /\
  create_features L no_maps 1000 (-11.2587999) (-104.2196) "Kozhikode" "Kerala"
    "RESIDENTIAL" None None true true = Raise ValueError.
Proof.
  intros Hs1 Hs2 Hc1 Hc2 Hp.
  assert (haversine_a L (-11.2587999) (-104.2196) 11.2588 75.7804
          = Ok 1.0000000000000002%float) as Ha.
  { unfold haversine_a, math_sin, math_cos, math_1.
    change ((math_radians 11.2588 - math_radians (-11.2587999)) / 2)%float
      with 0.19650312895087296%float.
    change ((math_radians 75.7804 - math_radians (-104.2196)) / 2)%float
      with 1.5707963267948966%float.
    change (math_radians (-11.2587999)) with (-0.19650312807820833)%float.
    change (math_radians 11.2588) with 0.1965031298235376%float.
    rewrite Hs1, Hs2, Hc1, Hc2. simpl.
    unfold float_pow2. simpl. rewrite Hp. reflexivity. }
  split; [done|].
  rewrite create_features_no_maps by done.
  unfold estimated_city_distance.
  change (dict_get_default city_centers "Kozhikode" _) with (11.2588%float, 75.7804%float).
  simpl fst; simpl snd.
  by rewrite (haversine_domain_error L _ _ _ _ Ha).
Qed.

Lemma create_features_domain_error_witness :
  create_features sampled_libm no_maps 1000 (-11.2587999) (-104.2196) "Kozhikode" "Kerala"
    "RESIDENTIAL" None None true true = Raise ValueError.
Proof.
  exact (proj2 (create_features_domain_error sampled_libm
                  eq_refl eq_refl eq_refl eq_refl eq_refl)).
Defined.

Lemma feature_vector_of_direct area lat lng district state land_type road_width
    electricity water_supply city school hospital :
  let fv := feature_vector_of area lat lng district state land_type road_width
              electricity water_supply city school hospital in
  fv !! "area_sqft" = Some (PNum area) /\
  fv !! "latitude" = Some (PNum lat) /\
  fv !! "longitude" = Some (PNum lng) /\
  fv !! "land_type_encoded" = Some (PNum (dict_get_default land_type_map land_type 1%float)) /\
  fv !! "road_width" = Some (PNum (road_width_or_default road_width)) /\
  fv !! "electricity" = Some (PNum (if electricity then 1%float else 0%float)) /\
  fv !! "water_supply" = Some (PNum (if water_supply then 1%float else 0%float)) /\
  fv !! "state" = Some (PStr state) /\
  fv !! "district" = Some (PStr district) /\
  fv !! "distance_to_city" = Some (PNum city) /\
  fv !! "avg_price_in_area" = Some (PNum (_get_avg_price_in_area district state)).
Proof.
  unfold feature_vector_of.
  generalize (_get_avg_price_in_area district state).
  generalize (dict_get_default land_type_map land_type 1%float).
  generalize (road_width_or_default road_width).
  intros w code avg. repeat split; reflexivity.
Qed.

Lemma road_width_or_default_eq road_width :
  road_width_or_default road_width =
    match road_width with
    | Some w => if (w =? 0)%float then 6.0%float else w
    | None => 6.0%float
    end.
Proof. destruct road_width as [w|]; [|done]. simpl. by destruct (w =? 0)%float. Qed.

Lemma create_features_direct (L : Libm) (self : FeatureEngineer)
    (area lat lng : float) (district state land_type : string)
    (pincode : option string) (road_width : option float)
    (electricity water_supply : bool) (fv : gmap string pyval) :
  create_features L self area lat lng district state land_type pincode road_width
    electricity water_supply = Ok fv ->
  fv !! "area_sqft" = Some (PNum area) /\
  fv !! "latitude" = Some (PNum lat) /\
  fv !! "longitude" = Some (PNum lng) /\
  fv !! "land_type_encoded" = Some (PNum (land_type_code land_type)) /\
  fv !! "road_width" =
    Some (PNum match road_width with
               | Some w => if (w =? 0)%float then 6.0%float else w
               | None => 6.0%float
               end) /\
  fv !! "electricity" = Some (PNum (if electricity then 1%float else 0%float)) /\
  fv !! "water_supply" = Some (PNum (if water_supply then 1%float else 0%float)).
Proof.
  intros H. apply create_features_inv in H as (city & school & hospital & ->).
  destruct (feature_vector_of_direct area lat lng district state land_type road_width
              electricity water_supply city school hospital)
    as (Ha & Hlat & Hlng & Hcode & Hw & He & Hws & _).
  rewrite land_type_map_code in Hcode. rewrite road_width_or_default_eq in Hw.
  auto 10.
Qed.

(** C8 (as amended): every vector [create_features] returns holds the area
    and coordinates as supplied; land-type code 1, 2, 3, 4 for RESIDENTIAL,
    COMMERCIAL, AGRICULTURAL, INDUSTRIAL and 1 for any other land type; the
    supplied road width when one is supplied and is not zero, and 6.0 when it
    is absent or zero; electricity and water flags 1 for true and 0 for false.
    A vector is returned whenever the fallback distance to the city centre can
    be computed. *)
Theorem direct_features_populated (L : Libm) (self : FeatureEngineer)
    (area lat lng : float) (district state land_type : string)
    (pincode : option string) (road_width : option float)
    (electricity water_supply : bool) :
  (forall fv,
     create_features L self area lat lng district state land_type pincode road_width
       electricity water_supply = Ok fv ->
     fv !! "area_sqft" = Some (PNum area) /\
     fv !! "latitude" = Some (PNum lat) /\
     fv !! "longitude" = Some (PNum lng) /\
     fv !! "land_type_encoded" = Some (PNum (land_type_code land_type)) /\
     fv !! "road_width" =
       Some (PNum match road_width with
                  | Some w => if (w =? 0)%float then 6.0%float else w
                  | None => 6.0%float
                  end) /\
     fv !! "electricity" = Some (PNum (if electricity then 1%float else 0%float)) /\
     fv !! "water_supply" = Some (PNum (if water_supply then 1%float else 0%float))) /\
  (forall city,
     estimated_city_distance L lat lng district = Ok city ->
     exists fv,
       create_features L self area lat lng district state land_type pincode road_width
         electricity water_supply = Ok fv).
Proof.
  split.
  - intros fv. apply create_features_direct.
  - intros city Hc.
    pose proof (create_features_returns L self area lat lng district state land_type
                  pincode road_width electricity water_supply city Hc) as Hok.
    destruct (create_features _ _ _ _ _ _ _ _ _ _ _ _) as [fv|e]; [by exists fv|done].
Qed.

Lemma some_pnum_inj (x y : float) : Some (PNum x) = Some (PNum y) -> x = y.
Proof. intros H. by injection H. Qed.

Lemma float_neq_6_0 : (6.0 <> 0)%float.
Proof. intros H. apply (f_equal Prim2SF) in H. vm_compute in H. discriminate. Qed.

(** C8 (as stated) fails: a supplied road width of 0 is replaced by 6.0.  The
    first part evaluates one request; the second says that no request with
    road width 0 ever yields a road-width slot of 0. *)
Lemma zero_road_width_replaced :
  (exists fv,
     create_features small_angle_libm no_maps 2178 10.5276 76.2144 "Thrissur" "Kerala"
       "RESIDENTIAL" None (Some 0%float) true true = Ok fv /\
     fv !! "road_width" = Some (PNum 6.0%float)) /\
  ~ (exists L self area lat lng district state land_type pincode electricity water_supply fv,
       create_features L self area lat lng district state land_type pincode (Some 0%float)
         electricity water_supply = Ok fv /\
       fv !! "road_width" = Some (PNum 0%float)).
Proof.
  split.
  - exists (feature_vector_of 2178 10.5276 76.2144 "Thrissur" "Kerala" "RESIDENTIAL"
              (Some 0%float) true true 0 2 3).
    split; [|reflexivity].
    rewrite create_features_no_maps by done.
    unfold estimated_city_distance.
    change (dict_get_default city_centers "Thrissur" _) with (10.5276%float, 76.2144%float).
    simpl fst; simpl snd.
    rewrite (haversine_same_valid _ small_angle_laws) by (by split). reflexivity.
  - intros (L & self & area & lat & lng & district & state & land_type & pincode &
            electricity & water_supply & fv & H & Hw).
    apply create_features_direct in H as (_ & _ & _ & _ & Hw' & _).
    rewrite Hw' in Hw. apply some_pnum_inj in Hw. by apply float_neq_6_0.
Qed.

(** The fallback path at a city centre, or at any valid point of an unknown
    district, estimates a distance of 0 to the city. *)
Lemma estimated_city_distance_zero (L : Libm) (lat lng : float) (district : string) :
  LibmLaws L ->
  city_centers !! district = Some (lat, lng) \/
  (city_centers !! district = None /\ valid_coordinates lat lng) ->
  estimated_city_distance L lat lng district = Ok 0%float.
Proof.
  intros HL H. unfold estimated_city_distance, dict_get_default.
  destruct H as [H|[H Hv]]; rewrite H; simpl.
  - apply haversine_same_valid; [done|]. by apply (city_centers_valid district).
  - by apply haversine_same_valid.
Qed.

(** C9: for a C library satisfying [LibmLaws], the haversine distance is
    symmetric in its two points (same value, or the same exception) and is 0
    from any valid coordinate pair to itself; hence, with no geocoding client,
    distance_to_city is 0 when the coordinates are the city-centre entry of a
    recognized district, and also when the district is unknown. *)
Theorem haversine_symmetric_zero (L : Libm) :
  LibmLaws L ->
  (forall lat1 lon1 lat2 lon2,
     _haversine_distance L lat1 lon1 lat2 lon2 = _haversine_distance L lat2 lon2 lat1 lon1) /\
  (forall lat lon,
     valid_coordinates lat lon -> _haversine_distance L lat lon lat lon = Ok 0%float) /\
  (forall area lat lng district state land_type pincode road_width electricity water_supply,
     city_centers !! district = Some (lat, lng) \/
     (city_centers !! district = None /\ valid_coordinates lat lng) ->
     exists d fv,
       _estimate_distances L lat lng district = Ok d /\
       d !! "distance_to_city" = Some (PNum 0%float) /\
       create_features L no_maps area lat lng district state land_type pincode road_width
         electricity water_supply = Ok fv /\
       fv !! "distance_to_city" = Some (PNum 0%float)).
Proof.
  intros HL. split; [|split].
  - apply haversine_sym. exact HL.
  - intros lat lon. by apply haversine_same_valid.
  - intros area lat lng district state land_type pincode road_width electricity
      water_supply H.
    pose proof (estimated_city_distance_zero L lat lng district HL H) as Hz.
    exists (distance_entries 0 5 10 2 3),
           (feature_vector_of area lat lng district state land_type road_width
              electricity water_supply 0 2 3).
    rewrite estimate_distances_eq, create_features_no_maps, Hz by done.
    repeat split; reflexivity.
Qed.

Lemma haversine_symmetric_zero_witness :
  _haversine_distance small_angle_libm 13.0827 80.2707 12.9716 77.5946 =
  _haversine_distance small_angle_libm 12.9716 77.5946 13.0827 80.2707 /\
  _haversine_distance small_angle_libm 13.0827 80.2707 13.0827 80.2707 = Ok 0%float.
Proof.
  destruct (haversine_symmetric_zero small_angle_libm small_angle_laws) as (Hs & Hz & _).
  split; [apply Hs|]. apply Hz. split; reflexivity.
Defined.

Lemma heuristic_base_price_absent (fv : gmap string pyval) :
  fv !! "state" = None -> fv !! "district" = None ->
  heuristic_base_price fv = 3000%float.
Proof.
  intros Hs Hd. unfold heuristic_base_price, dict_get_default. by rewrite Hs, Hd.
Qed.

(** The heuristic result depends on the vector only through the base price
    and five of its entries. *)
Lemma heuristic_prediction_ext (fv fv' : gmap string pyval) :
  heuristic_base_price fv = heuristic_base_price fv' ->
  fv !! "distance_to_city" = fv' !! "distance_to_city" ->
  fv !! "distance_to_metro" = fv' !! "distance_to_metro" ->
  fv !! "electricity" = fv' !! "electricity" ->
  fv !! "water_supply" = fv' !! "water_supply" ->
  fv !! "area_sqft" = fv' !! "area_sqft" ->
  _heuristic_prediction fv = _heuristic_prediction fv'.
Proof.
  intros Hb Hc Hm He Hw Ha.
  unfold _heuristic_prediction, dict_get, dict_get_default, dict_getitem.
  rewrite Hb. by destruct Hc, Hm, He, Hw, Ha.
Qed.

Lemma float_neq_3000_2000 : (3000 <> 2000)%float.
Proof. intros H. apply (f_equal Prim2SF) in H. vm_compute in H. discriminate. Qed.

(** C10: the vector [create_features] returns also holds the strings 'state'
    and 'district'; the heuristic branch takes its base price from these two
    entries (the price per unit area it returns is that base price times the
    multipliers that apply); and when both entries are absent it behaves as
    for state 'Kerala' and district 'Ernakulam', with base price 3000 and not
    the default 2000 of an unmapped pair. *)
Theorem heuristic_reads_state_district :
  (forall L self area lat lng district state land_type pincode road_width electricity
          water_supply fv,
     create_features L self area lat lng district state land_type pincode road_width
       electricity water_supply = Ok fv ->
     fv !! "state" = Some (PStr state) /\ fv !! "district" = Some (PStr district)) /\
  (forall fv s d,
     fv !! "state" = Some (PStr s) -> fv !! "district" = Some (PStr d) ->
     heuristic_base_price fv =
       dict_get_default (dict_get_default base_prices s ∅) d 2000%float) /\
  (forall fv r,
     _heuristic_prediction fv = Ok r ->
     exists near_city near_metro utilities,
       price_per_sqft r =
         heuristic_adjust (heuristic_base_price fv) near_city near_metro utilities) /\
  (forall fv,
     fv !! "state" = None -> fv !! "district" = None ->
     heuristic_base_price fv = 3000%float /\
     heuristic_base_price fv <> 2000%float /\
     _heuristic_prediction fv =
       _heuristic_prediction (<["state" := PStr "Kerala"]> (<["district" := PStr "Ernakulam"]> fv))) /\
  heuristic_base_price (<["state" := PStr "Goa"]> (<["district" := PStr "Panaji"]> ∅))
    = 2000%float.
Proof.
  split; [|split; [|split; [|split]]].
  - intros L self area lat lng district state land_type pincode road_width electricity
      water_supply fv H.
    apply create_features_inv in H as (city & school & hospital & ->).
    destruct (feature_vector_of_direct area lat lng district state land_type road_width
                electricity water_supply city school hospital)
      as (_ & _ & _ & _ & _ & _ & _ & Hs & Hd & _).
    by split.
  - intros fv s d Hs Hd. unfold heuristic_base_price, dict_get_default.
    by rewrite Hs, Hd.
  - intros fv r H. apply heuristic_inv in H as (_ & _ & _ & a & c & m & _ & _ & Hp).
    eauto.
  - intros fv Hs Hd. rewrite (heuristic_base_price_absent fv Hs Hd).
    split; [done|]. split; [apply float_neq_3000_2000|].
    apply heuristic_prediction_ext;
      [|by rewrite !lookup_insert_ne by done..].
    rewrite (heuristic_base_price_absent fv Hs Hd).
    unfold heuristic_base_price, dict_get_default.
    rewrite lookup_insert_eq, lookup_insert_ne, lookup_insert_eq by done.
    reflexivity.
  - reflexivity.
Qed.

(** * Further properties of the service *)

(** ** Auxiliary lemmas *)

Lemma feature_vector_of_distances area lat lng district state land_type road_width
    electricity water_supply city school hospital :
  let fv := feature_vector_of area lat lng district state land_type road_width
              electricity water_supply city school hospital in
  fv !! "distance_to_highway" = Some (PNum 5) /\
  fv !! "distance_to_metro" = Some (PNum 10) /\
  fv !! "distance_to_school" = Some (PNum school) /\
  fv !! "distance_to_hospital" = Some (PNum hospital).
Proof.
  unfold feature_vector_of.
  generalize (_get_avg_price_in_area district state).
  generalize (dict_get_default land_type_map land_type 1%float).
  generalize (road_width_or_default road_width).
  intros w code avg. repeat split; reflexivity.
Qed.

(** A table of tables answers 2000 for a pair it does not map. *)
Lemma table_unmapped (table : gmap string (gmap string float)) (state district : string) :
  (forall t, table !! state = Some t -> t !! district = None) ->
  dict_get_default (dict_get_default table state ∅) district 2000%float = 2000%float.
Proof.
  intros H. unfold dict_get_default.
  destruct (table !! state) as [t|] eqn:E; [by rewrite (H t)|by rewrite lookup_empty].
Qed.

(** A number below zero is neither NaN nor a zero, and its sign bit is set. *)
Lemma ltb_zero_sign x :
  (x <? 0)%float = true ->
  sf_is_nan (Prim2SF x) = false /\ sf_is_zero (Prim2SF x) = false /\
  sf_sign (Prim2SF x) = true.
Proof.
  rewrite FloatAxioms.ltb_spec. change (Prim2SF 0) with (S754_zero false).
  by destruct (Prim2SF x) as [[]|[]| |[] m e].
Qed.

Lemma ltb_nan x c : is_nan x = true -> (x <? c)%float = false.
Proof. rewrite is_nan_spec, FloatAxioms.ltb_spec. by destruct (Prim2SF x). Qed.

(** [math.sqrt] of a negative number is a domain error. *)
Lemma math_sqrt_negative x : (x <? 0)%float = true -> math_sqrt x = Raise ValueError.
Proof.
  intros H. apply ltb_zero_sign in H as (Hn & Hz & Hs).
  unfold math_sqrt, math_1.
  rewrite !is_nan_spec, FloatAxioms.sqrt_spec, Hn.
  destruct (Prim2SF x) as [[]|[]| |[] m e]; done.
Qed.

(** Division by a zero yields an infinity or NaN. *)
Lemma div_zero_not_finite p a : (a =? 0)%float = true -> is_finite (p / a) = false.
Proof.
  rewrite eqb_zero_spec, is_finite_spec, FloatAxioms.div_spec.
  destruct (Prim2SF a) as [sa| | |]; try done. intros _.
  by destruct (Prim2SF p) as [[]|[]| |[] m e], sa.
Qed.

Lemma math_1_value_error f x e : math_1 f x = Raise e -> e = ValueError.
Proof.
  unfold math_1. destruct (_ && _); [congruence|]. destruct (_ && _); congruence.
Qed.

Lemma float_pow2_overflow L v e : float_pow2 L v = Raise e -> e = OverflowError.
Proof.
  unfold float_pow2.
  destruct (is_nan v); [done|]. destruct (is_infinity v); [done|].
  destruct (v =? 0)%float; [done|]. destruct (abs v =? 1)%float; [done|].
  destruct (is_infinity _); congruence.
Qed.

Lemma math_atan2_errors L y x e :
  math_atan2 L y x = Raise e -> e = ValueError \/ e = OverflowError.
Proof.
  unfold math_atan2. destruct (_ && _); [intros [= <-]; by left|].
  destruct (_ && _); [intros [= <-]; by right|done].
Qed.

Lemma haversine_a_errors L lat1 lon1 lat2 lon2 e :
  haversine_a L lat1 lon1 lat2 lon2 = Raise e -> e = ValueError \/ e = OverflowError.
Proof.
  unfold haversine_a, math_sin, math_cos.
  repeat match goal with
  | |- bind (math_1 ?f ?x) _ = _ -> _ =>
      destruct (math_1 f x) eqn:?; simpl;
        [|intros [= <-]; left; by eapply math_1_value_error]
  | |- bind (float_pow2 ?L ?x) _ = _ -> _ =>
      destruct (float_pow2 L x) eqn:?; simpl;
        [|intros [= <-]; right; by eapply float_pow2_overflow]
  end.
  done.
Qed.

(** The haversine distance raises nothing but the two errors of the [math]
    module. *)
Lemma haversine_errors L lat1 lon1 lat2 lon2 e :
  _haversine_distance L lat1 lon1 lat2 lon2 = Raise e ->
  e = ValueError \/ e = OverflowError.
Proof.
  unfold _haversine_distance.
  destruct (haversine_a L lat1 lon1 lat2 lon2) as [a|e'] eqn:Ea; simpl.
  - destruct (math_sqrt a) as [q1|] eqn:E1; simpl;
      [|intros [= <-]; left; by eapply math_1_value_error].
    destruct (math_sqrt (1 - a)) as [q2|] eqn:E2; simpl;
      [|intros [= <-]; left; by eapply math_1_value_error].
    destruct (math_atan2 L q1 q2) as [t|] eqn:Et; simpl; [done|].
    intros [= <-]. by eapply math_atan2_errors.
  - intros [= <-]. by eapply haversine_a_errors.
Qed.

(** An exception of [create_features] is the exception of the fallback
    estimate. *)
Lemma features_raise_inv L self area lat lng district state land_type pincode
    road_width electricity water_supply e :
  create_features L self area lat lng district state land_type pincode road_width
    electricity water_supply = Raise e ->
  estimated_city_distance L lat lng district = Raise e.
Proof.
  intros H. destruct (gmaps self) as [g|] eqn:Hg.
  - unfold create_features in H. rewrite Hg in H.
    rewrite estimate_distances_eq in H.
    destruct (_calculate_distances L g lat lng district); simpl in H; [done|].
    destruct (estimated_city_distance L lat lng district); simpl in H; congruence.
  - rewrite create_features_no_maps in H by done.
    destruct (estimated_city_distance L lat lng district); simpl in H; congruence.
Qed.

(** The heuristic branch on a vector of [create_features]. *)
Lemma heuristic_feature_vector area lat lng district state land_type road_width
    electricity water_supply city school hospital :
  let per_sqft :=
    heuristic_adjust
      (dict_get_default (dict_get_default base_prices state ∅) district 2000%float)
      (city <? 5)%float false (electricity && water_supply) in
  _heuristic_prediction
    (feature_vector_of area lat lng district state land_type road_width
       electricity water_supply city school hospital) =
  Ok {|
    price := (per_sqft * area)%float;
    price_per_sqft := per_sqft;
    confidence := 0.6%float;
    price_min := (per_sqft * area * 0.8)%float;
    price_max := (per_sqft * area * 1.2)%float;
    factors := list_to_map [
      ("location", "moderate_impact");
      ("infrastructure", if electricity then "positive" else "needs_improvement");
      ("note", "Prediction based on market averages (model training in progress)")
    ]
  |}.
Proof.
  destruct (feature_vector_of_direct area lat lng district state land_type road_width
              electricity water_supply city school hospital)
    as (Ha & _ & _ & _ & _ & He & Hw & Hs & Hd & Hc & _).
  destruct (feature_vector_of_distances area lat lng district state land_type road_width
              electricity water_supply city school hospital) as (_ & Hm & _).
  cbv zeta in Ha, He, Hw, Hs, Hd, Hc, Hm.
  set (fv := feature_vector_of _ _ _ _ _ _ _ _ _ _ _ _) in *. clearbody fv.
  unfold _heuristic_prediction, heuristic_base_price.
  unfold dict_get, dict_get_default, dict_getitem.
  rewrite Ha, He, Hw, Hs, Hd, Hc, Hm. simpl.
  change (10 <? 2)%float with false. cbv iota.
  unfold heuristic_adjust.
  by destruct electricity, water_supply, (city <? 5)%float.
Qed.

Lemma int_to_float_overflow n e : int_to_float n = Raise e -> e = OverflowError.
Proof. unfold int_to_float. destruct (binary_normalize _ _ _ _ _); congruence. Qed.

Lemma py_lt_raises fv name c e :
  py_lt (dict_get_default fv name (PInt 100)) c = Raise e ->
  e = TypeError /\ exists v, fv !! name = Some v /\ is_number v = false.
Proof.
  unfold dict_get_default.
  destruct (fv !! name) as [[| | |]|]; simpl; try done; intros [= <-]; eauto.
Qed.

Lemma py_mul_raises b b_is_int v e :
  py_mul b b_is_int v = Raise e ->
  (e = TypeError /\ is_number v = false) \/
  (e = OverflowError /\ exists n, v = PInt n /\
     if b_is_int then int_to_float (int_of_float b * n) = Raise OverflowError
     else int_to_float n = Raise OverflowError).
Proof.
  destruct v as [x|n|s|]; simpl; try done; try (intros [= <-]; by left).
  intros H. right. destruct b_is_int.
  - pose proof (int_to_float_overflow _ _ H) as ->. eauto.
  - destruct (int_to_float n) as [x|e'] eqn:En; simpl in H; [done|].
    injection H as <-. pose proof (int_to_float_overflow _ _ En) as ->. eauto.
Qed.

(** When the heuristic branch raises. *)
Lemma heuristic_raises fv e :
  _heuristic_prediction fv = Raise e ->
  (e = KeyError /\ fv !! "area_sqft" = None) \/
  (e = TypeError /\
   exists name v, name ∈ ["distance_to_city"; "distance_to_metro"; "area_sqft"] /\
                  fv !! name = Some v /\ is_number v = false) \/
  (e = OverflowError /\
   exists n, fv !! "area_sqft" = Some (PInt n) /\
     (int_to_float n = Raise OverflowError \/
      int_to_float (int_of_float (heuristic_base_price fv) * n) = Raise OverflowError)).
Proof.
  unfold _heuristic_prediction.
  destruct (py_lt (dict_get_default fv "distance_to_city" _) 5) as [c|e1] eqn:Ec; simpl.
  2: { intros [= <-]. apply py_lt_raises in Ec as (-> & v & Hv & Hn).
       right; left. split; [done|]. exists "distance_to_city", v.
       split; [in_list|done]. }
  destruct (py_lt (dict_get_default fv "distance_to_metro" _) 2) as [m|e1] eqn:Em; simpl.
  2: { intros [= <-]. apply py_lt_raises in Em as (-> & v & Hv & Hn).
       right; left. split; [done|]. exists "distance_to_metro", v.
       split; [in_list|done]. }
  unfold dict_getitem.
  destruct (fv !! "area_sqft") as [v|] eqn:Ea; simpl; [|intros [= <-]; by left].
  set (u := truthy _ && truthy _).
  destruct (py_mul _ _ v) as [p|e1] eqn:Ep; simpl; [done|].
  intros [= <-]. right.
  apply py_mul_raises in Ep as [[-> Hn]|(-> & n & -> & Hn)].
  - left. split; [done|]. exists "area_sqft", v. split; [in_list|done].
  - right. split; [done|]. exists n. split; [done|].
    destruct c, m, u; simpl in Hn; auto.
Qed.

Lemma load_if_exists_raises fs path current e :
  load_if_exists fs path current = Raise e ->
  path_exists fs path = true /\ joblib_load fs path = Raise e.
Proof.
  unfold load_if_exists. destruct (path_exists fs path); [|done].
  destruct (joblib_load fs path); simpl; [done|]. by intros [= ->].
Qed.

(** Construction in a directory that lacks one of the two artifacts. *)
Lemma init_fresh (fs : FileSystem) :
  path_exists fs "trained_model.pkl" && path_exists fs "scaler.pkl" = false ->
  PricePredictionModel__init__ fs = Ok fresh_instance.
Proof.
  intros H. unfold PricePredictionModel__init__, load_model. by rewrite H.
Qed.

(** ** [create_features] and the mapping service *)

(** X1: whatever the mapping client answers, the vector [create_features]
    returns holds 5.0 as the distance to the highway and 10.0 as the distance
    to the metro; so no prediction made from such a vector, by either branch
    and for any estimator, reports the factor 'metro_access'. *)
Theorem highway_metro_fixed (L : Libm) (self : FeatureEngineer)
    (area lat lng : float) (district state land_type : string)
    (pincode : option string) (road_width : option float)
    (electricity water_supply : bool) (fv : gmap string pyval) :
  create_features L self area lat lng district state land_type pincode road_width
    electricity water_supply = Ok fv ->
  fv !! "distance_to_highway" = Some (PNum 5) /\
  fv !! "distance_to_metro" = Some (PNum 10) /\
  forall M r, predict M fv = Ok r -> factors r !! "metro_access" = None.
Proof.
  intros H. apply create_features_inv in H as (city & school & hospital & ->).
  destruct (feature_vector_of_distances area lat lng district state land_type road_width
              electricity water_supply city school hospital) as (Hh & Hm & _).
  split; [done|]. split; [done|].
  intros M r. unfold predict.
  destruct (statistical_prediction M _) as [r'|e] eqn:E; simpl.
  - intros [= <-]. unfold statistical_prediction in E.
    destruct (scaler_fitted M); simpl in E; [|done].
    destruct (scaler_transform M _) as [v|]; simpl in E; [|done].
    destruct (model_predict M v) as [p|]; simpl in E; [|done].
    destruct (_analyze_factors _ p) as [k|] eqn:Ek; simpl in E; [|done].
    destruct (dict_getitem _ _) as [a1|]; simpl in E; [|done].
    destruct (py_div p a1); simpl in E; [|done].
    injection E as <-. simpl.
    unfold _analyze_factors in Ek.
    unfold dict_get_default at 3 in Ek. rewrite Hm in Ek.
    change (py_lt (PNum 10) 2) with (Ok (A:=bool) false) in Ek.
    destruct (py_lt _ 5) as [[]|]; simpl in Ek; [| |done].
    + destruct (_ && _); injection Ek as <-; done.
    + destruct (py_lt _ 15) as [[]|]; simpl in Ek; [| |done];
        destruct (_ && _); injection Ek as <-; done.
  - rewrite heuristic_feature_vector. intros [= <-]. done.
Qed.

Lemma highway_metro_fixed_witness :
  exists fv,
    create_features small_angle_libm {| gmaps := Some (empty_area_client 12500) |}
      2178 10.5276 76.2144 "Thrissur" "Kerala" "RESIDENTIAL" None None true true = Ok fv /\
    fv !! "distance_to_metro" = Some (PNum 10).
Proof.
  eexists. split; [reflexivity|].
  eapply (highway_metro_fixed small_angle_libm {| gmaps := Some (empty_area_client 12500) |}
            2178 10.5276 76.2144 "Thrissur" "Kerala" "RESIDENTIAL" None None true true).
  reflexivity.
Defined.

(** X2: any exception inside the [try] block of [_calculate_distances] -- a
    failed call, a response that lacks a key or has the wrong shape, a
    domain error of a distance computed from the response, also after
    earlier calls have succeeded -- discards what the block has gathered:
    the result is the estimate, and [create_features] returns what it
    returns without a client. *)
Theorem maps_error_is_fallback (L : Libm) (g : Client)
    (area lat lng : float) (district state land_type : string)
    (pincode : option string) (road_width : option float)
    (electricity water_supply : bool) (e : exn) :
  calculate_distances_try L g lat lng (dict_get_default city_centers district (lat, lng))
    = Raise e ->
  _calculate_distances L g lat lng district = _estimate_distances L lat lng district /\
  create_features L {| gmaps := Some g |} area lat lng district state land_type pincode
    road_width electricity water_supply =
  create_features L {| gmaps := None |} area lat lng district state land_type pincode
    road_width electricity water_supply.
Proof.
  intros H.
  assert (Hc : _calculate_distances L g lat lng district
               = _estimate_distances L lat lng district).
  { unfold _calculate_distances. by rewrite H. }
  split; [done|].
  unfold create_features. cbn [gmaps]. rewrite Hc.
  by destruct (_estimate_distances L lat lng district).
Qed.

Lemma maps_error_is_fallback_witness :
  create_features small_angle_libm {| gmaps := Some (partial_client 12500) |}
    2178 10.5276 76.2144 "Thrissur" "Kerala" "RESIDENTIAL" None None true true =
  create_features small_angle_libm {| gmaps := None |}
    2178 10.5276 76.2144 "Thrissur" "Kerala" "RESIDENTIAL" None None true true.
Proof.
  apply (maps_error_is_fallback small_angle_libm (partial_client 12500)
           2178 10.5276 76.2144 "Thrissur" "Kerala" "RESIDENTIAL" None None true true
           ServiceError).
  reflexivity.
Defined.

(** X3: when the mapping service finds a route to the city centre and lists
    no school and no hospital nearby, the distance to the city is the route
    length in metres divided by 1000, the school distance is 5.0 (not the 2.0
    of the estimate) and the hospital distance 3.0; no haversine distance is
    computed, so the result does not depend on the C library. *)
Theorem maps_route_found (L : Libm) (g : Client)
    (area lat lng : float) (district state land_type : string)
    (pincode : option string) (road_width : option float)
    (electricity water_supply : bool) (value : float) :
  let city_center := dict_get_default city_centers district (lat, lng) in
  distance_matrix g lat lng city_center.1 city_center.2
    = Ok (distance_response (route_found value)) ->
  places_nearby g lat lng 5000 "school" = Ok (places_response []) ->
  places_nearby g lat lng 5000 "hospital" = Ok (places_response []) ->
  create_features L {| gmaps := Some g |} area lat lng district state land_type pincode
    road_width electricity water_supply =
  Ok (feature_vector_of area lat lng district state land_type road_width
        electricity water_supply (value / 1000) 5 3).
Proof.
  intros c Hd Hs Hh.
  unfold create_features. cbn [gmaps].
  unfold _calculate_distances, calculate_distances_try. fold c.
  rewrite Hd. simpl. rewrite Hs. simpl. rewrite Hh. simpl.
  reflexivity.
Qed.

Lemma maps_route_found_witness :
  create_features small_angle_libm {| gmaps := Some (empty_area_client 12500) |}
    2178 10.5276 76.2144 "Thrissur" "Kerala" "RESIDENTIAL" None None true true =
  Ok (feature_vector_of 2178 10.5276 76.2144 "Thrissur" "Kerala" "RESIDENTIAL" None
        true true (12500 / 1000) 5 3).
Proof.
  apply (maps_route_found small_angle_libm (empty_area_client 12500)
           2178 10.5276 76.2144 "Thrissur" "Kerala" "RESIDENTIAL" None None true true 12500);
    reflexivity.
Defined.

(** X4: when the element of the distance-matrix response has a status other
    than 'OK' and no place is listed, the distance to the city is the
    haversine estimate, while school and hospital keep the defaults 5.0 and
    3.0 of the mapping path; if the estimate raises, so does
    [create_features]. *)
Theorem maps_no_route (L : Libm) (g : Client)
    (area lat lng : float) (district state land_type : string)
    (pincode : option string) (road_width : option float)
    (electricity water_supply : bool) (status : string) :
  let city_center := dict_get_default city_centers district (lat, lng) in
  status <> "OK" ->
  distance_matrix g lat lng city_center.1 city_center.2
    = Ok (distance_response [("status", JStr status)]) ->
  places_nearby g lat lng 5000 "school" = Ok (places_response []) ->
  places_nearby g lat lng 5000 "hospital" = Ok (places_response []) ->
  create_features L {| gmaps := Some g |} area lat lng district state land_type pincode
    road_width electricity water_supply =
  (city <- estimated_city_distance L lat lng district ;;
   Ok (feature_vector_of area lat lng district state land_type road_width
         electricity water_supply city 5 3)).
Proof.
  intros c Hne Hd Hs Hh.
  unfold create_features. cbn [gmaps].
  unfold _calculate_distances, calculate_distances_try. fold c.
  rewrite Hd. simpl. apply String.eqb_neq in Hne. rewrite Hne.
  rewrite estimate_distances_eq. unfold estimated_city_distance. fold c.
  destruct (_haversine_distance L lat lng c.1 c.2) as [city|e]; simpl; [|done].
  rewrite Hs. simpl. rewrite Hh. simpl.
  reflexivity.
Qed.

Lemma maps_no_route_witness :
  create_features small_angle_libm {| gmaps := Some (no_route_client "ZERO_RESULTS") |}
    2178 10.5276 76.2144 "Thrissur" "Kerala" "RESIDENTIAL" None None true true =
  Ok (feature_vector_of 2178 10.5276 76.2144 "Thrissur" "Kerala" "RESIDENTIAL" None
        true true 0 5 3).
Proof.
  rewrite (maps_no_route small_angle_libm (no_route_client "ZERO_RESULTS")
             2178 10.5276 76.2144 "Thrissur" "Kerala" "RESIDENTIAL" None None true true
             "ZERO_RESULTS"); [|discriminate|reflexivity..].
  reflexivity.
Defined.

(** X5: a location outside the tables gets 2000 from both of them: when
    the state is none of the three mapped states, or the district none of
    the seven mapped districts, the area average price is 2000 and so is the
    base price of the heuristic branch. *)
Theorem unmapped_location_defaults (state district : string) :
  state ∉ ["Kerala"; "Karnataka"; "Tamil Nadu"] \/
  district ∉ ["Ernakulam"; "Thiruvananthapuram"; "Kozhikode"; "Bangalore"; "Mysore";
              "Chennai"; "Coimbatore"] ->
  _get_avg_price_in_area district state = 2000%float /\
  forall fv, fv !! "state" = Some (PStr state) -> fv !! "district" = Some (PStr district) ->
    heuristic_base_price fv = 2000%float.
Proof.
  intros H.
  assert (Ha : forall t, avg_prices !! state = Some t -> t !! district = None).
  { intros t Ht. destruct H as [H|H].
    - unfold avg_prices in Ht. rewrite not_elem_of_list_to_map_1 in Ht; [done|].
      simpl. set_solver.
    - unfold avg_prices in Ht.
      apply elem_of_list_to_map_2 in Ht.
      repeat (apply elem_of_cons in Ht as [Ht|Ht];
              [injection Ht as _ ->;
               by rewrite !lookup_insert_ne by (intros <-; set_solver)|]).
      by apply elem_of_nil in Ht. }
  assert (Hb : forall t, base_prices !! state = Some t -> t !! district = None).
  { intros t Ht. destruct H as [H|H].
    - unfold base_prices in Ht. rewrite not_elem_of_list_to_map_1 in Ht; [done|].
      simpl. set_solver.
    - unfold base_prices in Ht.
      apply elem_of_list_to_map_2 in Ht.
      repeat (apply elem_of_cons in Ht as [Ht|Ht];
              [injection Ht as _ ->;
               by rewrite !lookup_insert_ne by (intros <-; set_solver)|]).
      by apply elem_of_nil in Ht. }
  split.
  - unfold _get_avg_price_in_area. by apply table_unmapped.
  - intros fv Hs Hd. unfold heuristic_base_price.
    unfold dict_get_default. rewrite Hs, Hd. by apply (table_unmapped base_prices).
Qed.

Lemma unmapped_location_defaults_witness :
  _get_avg_price_in_area "Thrissur" "Kerala" = 2000%float /\
  _get_avg_price_in_area "Mumbai" "Maharashtra" = 2000%float.
Proof.
  split.
  - apply (unmapped_location_defaults "Kerala" "Thrissur"). right.
    repeat (apply not_elem_of_cons; split; [discriminate|]). apply not_elem_of_nil.
  - apply (unmapped_location_defaults "Maharashtra" "Mumbai"). left.
    repeat (apply not_elem_of_cons; split; [discriminate|]). apply not_elem_of_nil.
Defined.

(** ** Errors of the haversine distance *)

(** X6: the haversine argument is not clamped to [0, 1]: whenever the
    computed [a] is below zero, or [1 - a] is below zero, the distance raises
    [ValueError] (the square root's domain error). *)
Theorem haversine_outside_unit_interval (L : Libm) (lat1 lon1 lat2 lon2 a : float) :
  haversine_a L lat1 lon1 lat2 lon2 = Ok a ->
  ((a <? 0) || (1 - a <? 0))%float = true ->
  _haversine_distance L lat1 lon1 lat2 lon2 = Raise ValueError.
Proof.
  intros Ha Hout. unfold _haversine_distance. rewrite Ha. simpl.
  destruct (a <? 0)%float eqn:E0; simpl in Hout.
  - by rewrite math_sqrt_negative.
  - destruct (math_sqrt a) as [q1|e] eqn:E1; simpl.
    + by rewrite math_sqrt_negative.
    + by rewrite (math_1_value_error _ _ _ E1).
Qed.

Lemma haversine_outside_unit_interval_witness :
  _haversine_distance sampled_libm (-11.2587999) (-104.2196) 11.2588 75.7804
    = Raise ValueError.
Proof.
  apply (haversine_outside_unit_interval sampled_libm (-11.2587999) (-104.2196)
           11.2588 75.7804 1.0000000000000002); reflexivity.
Defined.

(** X7: [create_features] raises only when the haversine estimate of the
    distance to the city centre raises, and then it raises that exception,
    which is a [ValueError] or an [OverflowError]; an exception of the
    mapping client never escapes. *)
Theorem create_features_raises (L : Libm) (self : FeatureEngineer)
    (area lat lng : float) (district state land_type : string)
    (pincode : option string) (road_width : option float)
    (electricity water_supply : bool) (e : exn) :
  create_features L self area lat lng district state land_type pincode road_width
    electricity water_supply = Raise e ->
  estimated_city_distance L lat lng district = Raise e /\
  (e = ValueError \/ e = OverflowError).
Proof.
  intros H. apply features_raise_inv in H. split; [done|].
  by eapply haversine_errors.
Qed.

Lemma create_features_raises_witness :
  estimated_city_distance sampled_libm (-11.2587999) (-104.2196) "Kozhikode"
    = Raise ValueError.
Proof.
  apply (create_features_raises sampled_libm no_maps 1000 (-11.2587999) (-104.2196)
           "Kozhikode" "Kerala" "RESIDENTIAL" None None true true ValueError).
  reflexivity.
Defined.

(** ** The two branches of [predict] *)

(** X8: with a city and a metro distance that are floats or absent,
    [_analyze_factors] returns; 'location' is always present and labelled by
    the city distance (below 5: 'high_value_area', below 15: 'moderate_area',
    otherwise 'peripheral_area'), an absent distance counting as 100, so that
    an absent or NaN distance is labelled 'peripheral_area'; 'metro_access'
    is present exactly when the metro distance is below 2, 'infrastructure'
    exactly when both utilities are true; there is no other key, and the
    predicted price plays no part. *)
Theorem analyze_factors_labels (fv : gmap string pyval) (p : float) :
  numeric_or_absent fv "distance_to_city" ->
  numeric_or_absent fv "distance_to_metro" ->
  exists f,
    _analyze_factors fv p = Ok f /\
    f !! "location" = Some (location_label (distance_or_default fv "distance_to_city")) /\
    (fv !! "distance_to_city" = None -> f !! "location" = Some "peripheral_area") /\
    (forall d, fv !! "distance_to_city" = Some (PNum d) -> is_nan d = true ->
       f !! "location" = Some "peripheral_area") /\
    (f !! "metro_access" =
       if (distance_or_default fv "distance_to_metro" <? 2)%float
       then Some "excellent" else None) /\
    (f !! "infrastructure" =
       if truthy (dict_get fv "electricity") && truthy (dict_get fv "water_supply")
       then Some "well_developed" else None) /\
    (forall k, k ∉ ["location"; "metro_access"; "infrastructure"] -> f !! k = None).
Proof.
  intros Hc Hm. unfold numeric_or_absent in Hc, Hm.
  unfold _analyze_factors, distance_or_default, location_label, dict_get_default.
  destruct (fv !! "distance_to_city") as [[c| | |]|] eqn:Ec; try done;
    destruct (fv !! "distance_to_metro") as [[m| | |]|] eqn:Em; try done; simpl.
  all: try change (int_lt_float 100 5) with false;
       try change (int_lt_float 100 15) with false;
       try change (int_lt_float 100 2) with false.
  all: try change (100 <? 5)%float with false; try change (100 <? 15)%float with false;
       try change (100 <? 2)%float with false; cbv iota.
  all: repeat match goal with
       | |- context [(?x <? ?y)%float] =>
           lazymatch x with
           | 100%float => fail
           | _ => destruct (x <? y)%float eqn:?
           end
       end; destruct (_ && _); simpl.
  all: eexists; split; [reflexivity|].
  all: repeat split; try done.
  all: try (intros d [= ->] Hn; rewrite (ltb_nan d) in * by done; done).
  all: intros k Hk; rewrite ?lookup_insert_ne by (intros <-; set_solver); done.
Qed.

Lemma analyze_factors_labels_witness :
  exists f, _analyze_factors chennai_vector 5720000 = Ok f /\
            f !! "location" = Some "high_value_area" /\
            f !! "metro_access" = None.
Proof.
  destruct (analyze_factors_labels chennai_vector 5720000) as (f & Hf & Hl & _ & _ & Hm & _);
    [by vm_compute..|].
  exists f. split; [done|]. split; [exact Hl|exact Hm].
Defined.

(** X9: an untrained estimator on a vector of [create_features]: the price
    per unit area is the base price of the state and district, times 1.3
    when the city distance is below 5 and times 1.1 when both utilities are
    on; the metro multiplier 1.2 never applies (the metro distance is always
    10), and land type, road width and pincode play no part.  The price is
    that value times the area, and 'infrastructure' is labelled by
    electricity alone. *)
Theorem untrained_pipeline_price (L : Libm) (self : FeatureEngineer)
    (M : PricePredictionModel)
    (area lat lng : float) (district state land_type : string)
    (pincode : option string) (road_width : option float)
    (electricity water_supply : bool) (fv : gmap string pyval) :
  untrained M ->
  create_features L self area lat lng district state land_type pincode road_width
    electricity water_supply = Ok fv ->
  exists city r,
    fv !! "distance_to_city" = Some (PNum city) /\
    predict M fv = Ok r /\
    price_per_sqft r =
      heuristic_adjust
        (dict_get_default (dict_get_default base_prices state ∅) district 2000%float)
        (city <? 5)%float false (electricity && water_supply) /\
    price r = (price_per_sqft r * area)%float /\
    factors r !! "infrastructure" =
      Some (if electricity then "positive" else "needs_improvement").
Proof.
  intros HM H. apply create_features_inv in H as (city & school & hospital & ->).
  rewrite predict_untrained by done.
  destruct (feature_vector_of_direct area lat lng district state land_type road_width
              electricity water_supply city school hospital)
    as (_ & _ & _ & _ & _ & _ & _ & _ & _ & Hc & _).
  rewrite heuristic_feature_vector.
  exists city. eexists. split; [exact Hc|]. split; [reflexivity|].
  repeat split.
Qed.

Lemma untrained_pipeline_price_witness :
  exists r, predict fresh_model chennai_vector = Ok r /\
            price_per_sqft r = heuristic_adjust 4000 true false true.
Proof.
  destruct (untrained_pipeline_price small_angle_libm no_maps fresh_model
              1000 13.0827 80.2707 "Chennai" "Tamil Nadu" "RESIDENTIAL" None None true true
              chennai_vector)
    as (city & r & Hc & Hr & Hp & _);
    [reflexivity|apply chennai_features, small_angle_laws|].
  exists r. split; [done|].
  rewrite Hp. apply some_pnum_inj in Hc as <-. reflexivity.
Defined.

(** X10: on a dictionary of floats, ints, strings and [None], [predict]
    raises only what its heuristic branch raises on the same vector:
    [KeyError] when 'area_sqft' is absent; [TypeError] when the
    city distance, the metro distance or the area is present and not a
    number; or [OverflowError] when the area is an int too large to be
    converted to a float, either itself (the base price being a float) or
    multiplied by the int base price of the table.  This holds for every
    estimator, trained or not. *)
Theorem predict_raises (M : PricePredictionModel) (fv : gmap string pyval) (e : exn) :
  predict M fv = Raise e ->
  _heuristic_prediction fv = Raise e /\
  ((e = KeyError /\ fv !! "area_sqft" = None) \/
   (e = TypeError /\
    exists name v, name ∈ ["distance_to_city"; "distance_to_metro"; "area_sqft"] /\
                   fv !! name = Some v /\ is_number v = false) \/
   (e = OverflowError /\
    exists n, fv !! "area_sqft" = Some (PInt n) /\
      (int_to_float n = Raise OverflowError \/
       int_to_float (int_of_float (heuristic_base_price fv) * n) = Raise OverflowError))).
Proof.
  intros H.
  assert (Hh : _heuristic_prediction fv = Raise e).
  { unfold predict in H. by destruct (statistical_prediction M fv). }
  split; [done|]. by apply heuristic_raises.
Qed.

Lemma predict_raises_witness :
  _heuristic_prediction huge_area_vector = Raise OverflowError /\
  _heuristic_prediction (<["area_sqft" := PStr "1000"]> chennai_vector) = Raise TypeError.
Proof.
  split.
  - apply (predict_raises fresh_model huge_area_vector OverflowError).
    vm_compute. reflexivity.
  - apply (predict_raises (constant_model 5720000)
             (<["area_sqft" := PStr "1000"]> chennai_vector) TypeError).
    vm_compute. reflexivity.
Defined.

(** X11: a vector without 'area_sqft' (its two distances floats or absent)
    makes [predict] raise [KeyError], whatever the estimator: the statistical
    branch fails on the missing key, and so does the heuristic branch that
    handles the failure. *)
Theorem predict_missing_area (M : PricePredictionModel) (fv : gmap string pyval) :
  numeric_or_absent fv "distance_to_city" ->
  numeric_or_absent fv "distance_to_metro" ->
  fv !! "area_sqft" = None ->
  predict M fv = Raise KeyError.
Proof.
  intros Hc Hm Ha.
  assert (Hh : _heuristic_prediction fv = Raise KeyError).
  { unfold _heuristic_prediction, dict_get_default, dict_getitem.
    unfold numeric_or_absent in Hc, Hm. rewrite Ha.
    destruct (fv !! "distance_to_city") as [[]|]; try done;
      destruct (fv !! "distance_to_metro") as [[]|]; done. }
  unfold predict.
  destruct (statistical_prediction M fv) as [r|e] eqn:E; simpl; [|done].
  apply statistical_inv in E as (_ & _ & _ & _ & a & Ha' & _). congruence.
Qed.

Lemma predict_missing_area_witness :
  predict (constant_model 5720000) (delete "area_sqft" chennai_vector) = Raise KeyError.
Proof.
  apply (predict_missing_area (constant_model 5720000) (delete "area_sqft" chennai_vector));
    by vm_compute.
Defined.

(** X12: an area of zero is not rejected: when the statistical branch
    completes on a vector whose area is zero, [predict] returns its result,
    and the price per unit area in it is an infinity or NaN. *)
Theorem zero_area_not_finite (M : PricePredictionModel) (fv : gmap string pyval)
    (a : float) (r : prediction) :
  fv !! "area_sqft" = Some (PNum a) ->
  (a =? 0)%float = true ->
  statistical_prediction M fv = Ok r ->
  predict M fv = Ok r /\ is_finite (price_per_sqft r) = false.
Proof.
  intros Ha Hz H. split; [by apply predict_statistical|].
  apply statistical_inv in H as (_ & _ & _ & _ & v & Hv & Hq).
  rewrite Ha in Hv. injection Hv as <-. simpl in Hq. injection Hq as <-.
  by apply div_zero_not_finite.
Qed.

Lemma zero_area_not_finite_witness :
  exists r, predict (constant_model 5720000) (<["area_sqft" := PNum 0]> chennai_vector) = Ok r /\
            price_per_sqft r = infinity.
Proof.
  eexists. split.
  - eapply (zero_area_not_finite (constant_model 5720000)
              (<["area_sqft" := PNum 0]> chennai_vector) 0); reflexivity.
  - reflexivity.
Defined.

(** X13: the statistical branch reads nothing but the thirteen numeric
    slots: two vectors that agree on them give the same outcome, so the
    strings 'state' and 'district', which select the base price of the
    heuristic branch, have no influence on a trained estimator's answer. *)
Theorem statistical_reads_numeric_slots (M : PricePredictionModel)
    (fv fv' : gmap string pyval) :
  (forall name, name ∈ feature_names -> fv !! name = fv' !! name) ->
  statistical_prediction M fv = statistical_prediction M fv'.
Proof.
  intros H.
  assert (H1 := H "area_sqft"). assert (H2 := H "latitude"). assert (H3 := H "longitude").
  assert (H4 := H "distance_to_city"). assert (H5 := H "distance_to_highway").
  assert (H6 := H "distance_to_metro"). assert (H7 := H "distance_to_school").
  assert (H8 := H "distance_to_hospital"). assert (H9 := H "road_width").
  assert (H10 := H "electricity"). assert (H11 := H "water_supply").
  assert (H12 := H "avg_price_in_area"). assert (H13 := H "land_type_encoded").
  clear H.
  unfold feature_names in *.
  specialize (H1 ltac:(in_list)). specialize (H2 ltac:(in_list)).
  specialize (H3 ltac:(in_list)). specialize (H4 ltac:(in_list)).
  specialize (H5 ltac:(in_list)). specialize (H6 ltac:(in_list)).
  specialize (H7 ltac:(in_list)). specialize (H8 ltac:(in_list)).
  specialize (H9 ltac:(in_list)). specialize (H10 ltac:(in_list)).
  specialize (H11 ltac:(in_list)). specialize (H12 ltac:(in_list)).
  specialize (H13 ltac:(in_list)).
  unfold statistical_prediction, _calculate_confidence, _analyze_factors, feature_names.
  unfold dict_get, dict_get_default, dict_getitem. simpl fmap.
  by destruct H1, H2, H3, H4, H5, H6, H7, H8, H9, H10, H11, H12, H13.
Qed.

Lemma statistical_reads_numeric_slots_witness :
  statistical_prediction (constant_model 5720000) chennai_vector =
  statistical_prediction (constant_model 5720000)
    (<["state" := PStr "Maharashtra"]> (<["district" := PStr "Mumbai"]> chennai_vector)).
Proof.
  apply (statistical_reads_numeric_slots (constant_model 5720000) chennai_vector
           (<["state" := PStr "Maharashtra"]> (<["district" := PStr "Mumbai"]> chennai_vector))).
  intros name Hn. rewrite !lookup_insert_ne; [done|..];
    intros <-; unfold feature_names in Hn; not_in_list Hn.
Defined.

(** X14: on a vector of [create_features] the confidence takes one of two
    values: 0.95 when the statistical branch answers (both the city distance
    and the area average price are always present, so the scores 0.70, 0.80
    and 0.85 cannot occur), and 0.6 when the heuristic branch answers. *)
Theorem pipeline_confidence (L : Libm) (self : FeatureEngineer) (M : PricePredictionModel)
    (area lat lng : float) (district state land_type : string)
    (pincode : option string) (road_width : option float)
    (electricity water_supply : bool) (fv : gmap string pyval) (r : prediction) :
  create_features L self area lat lng district state land_type pincode road_width
    electricity water_supply = Ok fv ->
  predict M fv = Ok r ->
  (statistical_prediction M fv = Ok r /\ confidence r = 0.95%float) \/
  (_heuristic_prediction fv = Ok r /\ confidence r = 0.6%float).
Proof.
  intros H Hp. apply create_features_inv in H as (city & school & hospital & ->).
  destruct (feature_vector_of_direct area lat lng district state land_type road_width
              electricity water_supply city school hospital)
    as (_ & _ & _ & _ & _ & _ & _ & _ & _ & Hc & Ha).
  cbv zeta in Hc, Ha.
  set (fv := feature_vector_of _ _ _ _ _ _ _ _ _ _ _ _) in *. clearbody fv.
  unfold predict in Hp.
  destruct (statistical_prediction M fv) as [r'|e] eqn:E; simpl in Hp.
  - injection Hp as ->. left. split; [done|].
    apply statistical_inv in E as (_ & -> & _).
    unfold _calculate_confidence, dict_get, dict_get_default. by rewrite Hc, Ha.
  - right. split; [done|]. by apply heuristic_inv in Hp as (-> & _).
Qed.

Lemma pipeline_confidence_witness :
  exists r, predict (constant_model 5720000) chennai_vector = Ok r /\
            confidence r = 0.95%float.
Proof.
  eexists.
  destruct (pipeline_confidence small_angle_libm no_maps (constant_model 5720000)
              1000 13.0827 80.2707 "Chennai" "Tamil Nadu" "RESIDENTIAL" None None true true
              chennai_vector
              {| price := 5720000; price_per_sqft := 5720; confidence := 0.95;
                 price_min := 4862000; price_max := 6578000;
                 factors := list_to_map [("location", "high_value_area");
                                         ("infrastructure", "well_developed")] |})
    as [[_ Hc]|[Hh _]];
    [apply chennai_features, small_angle_laws|by vm_compute|
     split; [by vm_compute|exact Hc]|discriminate Hh].
Defined.

(** ** Construction of the estimator *)

(** X15: when the model file or the scaler file is missing, construction
    loads nothing (a file that is present alone is ignored) and succeeds;
    [is_loaded] then answers true although nothing was trained, the
    estimator is in the untrained state, and every prediction is the
    heuristic one. *)
Theorem init_without_artifacts (fs : FileSystem) :
  path_exists fs "trained_model.pkl" && path_exists fs "scaler.pkl" = false ->
  exists self,
    PricePredictionModel__init__ fs = Ok self /\
    is_loaded self = true /\
    untrained (estimator_state self) /\
    forall fv, predict (estimator_state self) fv = _heuristic_prediction fv.
Proof.
  intros H. exists fresh_instance. split; [by apply init_fresh|].
  split; [reflexivity|]. split; [reflexivity|].
  intros fv. by apply predict_untrained.
Qed.

Lemma init_without_artifacts_witness :
  exists self,
    PricePredictionModel__init__ model_file_only = Ok self /\ is_loaded self = true /\
    untrained (estimator_state self).
Proof.
  destruct (init_without_artifacts model_file_only) as (self & H1 & H2 & H3 & _);
    [reflexivity|].
  by exists self.
Defined.

(** X16: construction raises only when both the model file and the scaler
    file exist and loading one of the artifact files that exist raises; the
    exception is that of the load, which nothing handles. *)
Theorem init_raises (fs : FileSystem) (e : exn) :
  PricePredictionModel__init__ fs = Raise e ->
  path_exists fs "trained_model.pkl" = true /\
  path_exists fs "scaler.pkl" = true /\
  exists path, path ∈ artifact_paths /\
    path_exists fs path = true /\ joblib_load fs path = Raise e.
Proof.
  unfold PricePredictionModel__init__, load_model, artifact_paths.
  destruct (path_exists fs "trained_model.pkl") eqn:Em; simpl; [|done].
  destruct (path_exists fs "scaler.pkl") eqn:Es; simpl; [|done].
  intros H. split; [done|]. split; [done|].
  destruct (joblib_load fs "trained_model.pkl") eqn:E1; simpl in H;
    [|exists "trained_model.pkl"; split; [in_list|split; congruence]].
  destruct (joblib_load fs "scaler.pkl") eqn:E2; simpl in H;
    [|exists "scaler.pkl"; split; [in_list|split; congruence]].
  destruct (load_if_exists fs "property_type_encoder.pkl" _) eqn:E3; simpl in H;
    [|injection H as <-; apply load_if_exists_raises in E3;
      exists "property_type_encoder.pkl"; split; [in_list|done]].
  destruct (load_if_exists fs "district_encoder.pkl" _) eqn:E4; simpl in H;
    [|injection H as <-; apply load_if_exists_raises in E4;
      exists "district_encoder.pkl"; split; [in_list|done]].
  destruct (load_if_exists fs "feature_names.pkl" _) eqn:E5; simpl in H;
    [done|injection H as <-; apply load_if_exists_raises in E5;
      exists "feature_names.pkl"; split; [in_list|done]].
Qed.

Lemma init_raises_witness :
  exists path, path ∈ artifact_paths /\
    path_exists corrupt_artifacts path = true /\
    joblib_load corrupt_artifacts path = Raise ServiceError.
Proof.
  apply (init_raises corrupt_artifacts ServiceError). reflexivity.
Defined.

(** ** The [/predict] endpoint *)

(** X17: the endpoint has two outcomes.  It answers with the fields of the
    prediction made from the engineered features, together with the market
    data of the scraper (growth rate 8.5 and the scraper's own average price;
    the substitute data of the handler are never used); or it fails with status 500 and the detail 'Feature
    engineering failed', caused by a [ValueError] or [OverflowError] of the
    haversine estimate.  The failure 'Model prediction failed' does not occur,
    whatever the estimator and the mapping client do. *)
Theorem predict_price_outcome (L : Libm) (feature_engineer : FeatureEngineer)
    (model : PricePredictionModel) (request : PredictionRequest) :
  match predict_price L feature_engineer model request with
  | Response response =>
      exists features prediction,
        create_features L feature_engineer
          (req_area_sqft request) (req_latitude request) (req_longitude request)
          (req_district request) (req_state request) (req_land_type request)
          (req_pincode request) (req_road_width request)
          (optional_flag (req_electricity request))
          (optional_flag (req_water_supply request)) = Ok features /\
        predict model features = Ok prediction /\
        resp_predicted_price response = price prediction /\
        resp_price_per_sqft response = price_per_sqft prediction /\
        resp_confidence_score response = confidence prediction /\
        resp_confidence_interval response !! "min" = Some (price_min prediction) /\
        resp_confidence_interval response !! "max" = Some (price_max prediction) /\
        resp_key_factors response = factors prediction /\
        resp_market_insights response !! "growth_rate" = Some (JNum 8.5) /\
        resp_market_insights response !! "avg_price_per_sqft" =
          Some (JNum (_get_avg_price (req_district request) (req_state request)))
  | HTTPException status_code detail_prefix cause =>
      status_code = 500%Z /\
      detail_prefix = "Feature engineering failed: " /\
      (cause = ValueError \/ cause = OverflowError) /\
      estimated_city_distance L (req_latitude request) (req_longitude request)
        (req_district request) = Raise cause
  end.
Proof.
  unfold predict_price.
  destruct (create_features _ _ _ _ _ _ _ _ _ _ _ _) as [fv|e] eqn:Ef.
  - pose proof (create_features_slots _ _ _ _ _ _ _ _ _ _ _ _ _ Ef) as Hn.
    destruct (predict model fv) as [r|e] eqn:Ep.
    + exists fv, r. split; [done|]. split; [done|]. repeat split; reflexivity.
    + exfalso. unfold predict in Ep.
      destruct (statistical_prediction model fv); simpl in Ep; [done|].
      destruct (heuristic_returns_numeric fv Hn) as [r Hr]. congruence.
  - apply features_raise_inv in Ef.
    repeat split; [|done]. by eapply haversine_errors.
Qed.

(** X18: the service as deployed without trained artifacts and without an
    API key (unset or empty): both constructors succeed, and for every
    request whose haversine estimate of the city distance is computable the
    endpoint answers, with confidence 0.6, the heuristic price per unit
    area, the price as that value times the area, the interval from 0.8 to
    1.2 times the price, and the location factor 'moderate_impact' whatever
    the distance. *)
Theorem default_deployment (L : Libm) (fs : FileSystem)
    (googlemaps_Client : string -> result Client) (key : option string)
    (request : PredictionRequest) (city : float) :
  path_exists fs "trained_model.pkl" && path_exists fs "scaler.pkl" = false ->
  key = None \/ key = Some EmptyString ->
  estimated_city_distance L (req_latitude request) (req_longitude request)
    (req_district request) = Ok city ->
  exists self feature_engineer response,
    PricePredictionModel__init__ fs = Ok self /\
    FeatureEngineer__init__ googlemaps_Client key = Ok feature_engineer /\
    predict_price L feature_engineer (estimator_state self) request = Response response /\
    resp_confidence_score response = 0.6%float /\
    resp_price_per_sqft response =
      heuristic_adjust
        (dict_get_default (dict_get_default base_prices (req_state request) ∅)
           (req_district request) 2000%float)
        (city <? 5)%float false
        (optional_flag (req_electricity request) && optional_flag (req_water_supply request)) /\
    resp_predicted_price response = (resp_price_per_sqft response * req_area_sqft request)%float /\
    resp_confidence_interval response !! "min" =
      Some (resp_predicted_price response * 0.8)%float /\
    resp_confidence_interval response !! "max" =
      Some (resp_predicted_price response * 1.2)%float /\
    resp_key_factors response !! "location" = Some "moderate_impact".
Proof.
  intros Hfs Hkey Hc.
  exists fresh_instance, no_maps.
  unfold predict_price.
  rewrite create_features_no_maps, Hc by done. simpl bind. cbv iota beta.
  rewrite predict_untrained by reflexivity.
  rewrite heuristic_feature_vector. cbv iota beta zeta.
  eexists. split; [by apply init_fresh|].
  split; [by destruct Hkey as [->| ->]|].
  split; [reflexivity|].
  repeat split.
Qed.

Lemma default_deployment_witness :
  exists response,
    predict_price small_angle_libm no_maps (estimator_state fresh_instance) chennai_request
      = Response response /\
    resp_price_per_sqft response = 5720.000000000001%float.
Proof.
  destruct (default_deployment small_angle_libm empty_directory (fun _ => Raise ValueError)
              None chennai_request 0)
    as (self & engineer & response & Hs & He & Hr & _ & Hp & _);
    [reflexivity|by left|
     apply estimated_city_distance_zero; [apply small_angle_laws|by left]|].
  injection Hs as <-. injection He as <-.
  exists response. split; [exact Hr|]. rewrite Hp. reflexivity.
Defined.
